(** * websocket-client-io: the SimpleWebSocket client and the event client

    A shallow embedding of [src/SimpleWebSocket.js] together with the
    [MockWebSocket] transport its test-suite drives it with, and of the
    event-dispatching client as the design document describes it.

    JavaScript methods become computations in a small state-and-exception
    monad over the object they are bound to.  Every observable action
    (console output, user callbacks, calls into the transport) is recorded
    in a log, newest entry first. *)

From stdpp Require Import base option list strings gmap.
From Stdlib Require Import ZArith Lia.

Local Open Scope string_scope.
Local Open Scope list_scope.
Local Open Scope Z_scope.

(** ** JavaScript values *)

#[warnings="-register-all"]
Inductive JsValue : Type :=
| JUndefined
| JNull
| JBool (b : bool)
| JNum (n : Z)
| JNaN
| JStr (s : string)
| JError (name message : string)              (* new Error(message) and friends *)
| JObject (fields : list (string * JsValue)). (* object literal, keys in order *)

(** ToBoolean: what [if (v)] and [!v] look at. *)
Definition truthy (v : JsValue) : bool :=
  match v with
  | JUndefined | JNull | JNaN => false
  | JBool b => b
  | JNum n => negb (n =? 0)
  | JStr s => negb (String.eqb s "")
  | JError _ _ | JObject _ => true
  end.

Fixpoint assoc (k : string) (fs : list (string * JsValue)) : option JsValue :=
  match fs with
  | [] => None
  | (k', v) :: fs' => if String.eqb k k' then Some v else assoc k fs'
  end.

(** Property read [v.k] on a value that is neither undefined nor null. *)
Definition get_field (v : JsValue) (k : string) : JsValue :=
  match v with
  | JObject fs => default JUndefined (assoc k fs)
  | JError _ m => if String.eqb k "message" then JStr m else JUndefined
  | _ => JUndefined
  end.

Definition has_field (v : JsValue) (k : string) : bool :=
  match v with
  | JObject fs => bool_decide (is_Some (assoc k fs))
  | JError _ _ => String.eqb k "message"
  | _ => false
  end.

(** Optional string properties: [None] is [undefined]. *)
Definition truthy_str (o : option string) : bool :=
  match o with
  | Some s => negb (String.eqb s "")
  | None => false
  end.

(** [a || b] *)
Definition js_or (a b : option string) : option string :=
  if truthy_str a then a else b.

(** ToString of an optional string. *)
Definition js_string (o : option string) : string :=
  match o with
  | Some s => s
  | None => "undefined"
  end.

Definition of_opt (o : option string) : JsValue :=
  match o with
  | Some s => JStr s
  | None => JUndefined
  end.

(** ** User callbacks and the log *)

(** A function value supplied by the application: an identity and what a
    call does, [Some e] when the call throws [e]. *)
Record Callback : Type := mkCallback {
  cb_id : nat;
  cb_run : list JsValue → option JsValue
}.

Inductive Effect : Type :=
| ECall (f : nat) (args : list JsValue)          (* f(...args) *)
| EConsole (level : string) (args : list JsValue) (* console[level](...args) *)
| ESocketNew (url : string)                       (* new window.WebSocket(url) *)
| ESocketSend (data : JsValue)                    (* socket.send(data) *)
| ESocketClose                                    (* socket.close() *)
| ETransportEvent (name : string)                 (* the transport fires an event *)
| EJsonParse (text : string).                     (* JSON.parse(text) *)

(** ** The method monad *)

Inductive Outcome (A : Type) : Type :=
| Returned (a : A)
| Thrown (e : JsValue).
Arguments Returned {A} a.
Arguments Thrown {A} e.

Record World (T : Type) : Type := mkWorld {
  this : T;
  log : list Effect
}.
Arguments mkWorld {T} this log.
Arguments this {T} w.
Arguments log {T} w.

Definition M (T A : Type) : Type := World T → Outcome A * World T.

Section Monad.
Context {T : Type}.

Definition ret {A} (a : A) : M T A := λ w, (Returned a, w).

Definition bind {A B} (m : M T A) (k : A → M T B) : M T B :=
  λ w, match m w with
       | (Returned a, w') => k a w'
       | (Thrown e, w') => (Thrown e, w')
       end.

Definition throw {A} (e : JsValue) : M T A := λ w, (Thrown e, w).

(** [try { m } catch (e) { h e }]: what [m] did before it threw stays done. *)
Definition try_catch {A} (m : M T A) (h : JsValue → M T A) : M T A :=
  λ w, match m w with
       | (Thrown e, w') => h e w'
       | r => r
       end.

Definition get_this : M T T := λ w, (Returned (this w), w).

Definition set_this (t : T) : M T unit :=
  λ w, (Returned (), mkWorld t (log w)).

Definition effect (e : Effect) : M T unit :=
  λ w, (Returned (), mkWorld (this w) (e :: log w)).

Definition console (level : string) (args : list JsValue) : M T unit :=
  effect (EConsole level args).

(** [f(...args)] *)
Definition call (f : Callback) (args : list JsValue) : M T unit :=
  λ w, let w' := mkWorld (this w) (ECall (cb_id f) args :: log w) in
       match cb_run f args with
       | Some e => (Thrown e, w')
       | None => (Returned (), w')
       end.
End Monad.

(** stdpp's [x ← m; k] and [m ;; k] notations for the methods below. *)
#[global] Instance M_ret {T} : MRet (M T) := λ A, ret.
#[global] Instance M_bind {T} : MBind (M T) := λ A B k m, bind m k.

(** ** The platform: [window.WebSocket] and [URL] *)

(** A parsed URL: everything up to the query, the query as the list behind
    [searchParams], and the fragment (with its [#], or empty). *)
Module URL.
Record t : Type := mk {
  base : string;
  searchParams : list (string * string);
  hash : string
}.

(** [url.searchParams.append(name, value)] *)
Definition append (u : t) (name value : string) : t :=
  mk (base u) (searchParams u ++ [(name, value)]) (hash u).

Fixpoint query (enc : string → string) (ps : list (string * string)) : string :=
  match ps with
  | [] => ""
  | [(k, v)] => enc k +:+ "=" +:+ enc v
  | (k, v) :: ps' => enc k +:+ "=" +:+ enc v +:+ "&" +:+ query enc ps'
  end.

(** [url.toString()], given the form-urlencoding of one name or value. *)
Definition toString (enc : string → string) (u : t) : string :=
  match searchParams u with
  | [] => base u +:+ hash u
  | ps => base u +:+ "?" +:+ query enc ps +:+ hash u
  end.
End URL.

(** What the host environment provides.  The test-suite's jsdom setup with
    [MockWebSocket] is the instance in which the constructor and [send]
    never throw. *)
Record Env : Type := mkEnv {
  (** [typeof window !== 'undefined' && window.WebSocket] *)
  has_WebSocket : bool;
  (** [new URL(s)]; [None] when it throws a TypeError *)
  URL_parse : string → option URL.t;
  (** percent-encoding used by the URL serializer *)
  URL_encode : string → string;
  (** [new window.WebSocket(u)]: [Some e] when the constructor throws [e] *)
  WebSocket_new : string → option JsValue;
  (** [socket.send(d)]: [Some e] when the transport throws [e] *)
  WebSocket_send : JsValue → option JsValue
}.

(** The methods a socket's [on...] properties can be bound to. *)
Inductive Handler : Type := HOnConnect | HOnError | HOnMessage | HOnClose.

(** The socket object, as [MockWebSocket] of the test-suite lays it out. *)
Module MockWebSocket.
Record t : Type := mk {
  url : string;
  readyState : Z;           (* 0 connecting, 1 open, 2 closing, 3 closed *)
  binaryType : string;
  onopen : option Handler;
  onerror : option Handler;
  onmessage : option Handler;
  onclose : option Handler
}.

(** The fields the constructor sets. *)
Definition create (u : string) : t :=
  mk u 0 "arraybuffer" None None None None.

Definition set_readyState (n : Z) (s : t) : t :=
  mk (url s) n (binaryType s) (onopen s) (onerror s) (onmessage s) (onclose s).
Definition set_binaryType (b : string) (s : t) : t :=
  mk (url s) (readyState s) b (onopen s) (onerror s) (onmessage s) (onclose s).
Definition set_onopen (h : Handler) (s : t) : t :=
  mk (url s) (readyState s) (binaryType s) (Some h) (onerror s) (onmessage s) (onclose s).
Definition set_onerror (h : Handler) (s : t) : t :=
  mk (url s) (readyState s) (binaryType s) (onopen s) (Some h) (onmessage s) (onclose s).
Definition set_onmessage (h : Handler) (s : t) : t :=
  mk (url s) (readyState s) (binaryType s) (onopen s) (onerror s) (Some h) (onclose s).
Definition set_onclose (h : Handler) (s : t) : t :=
  mk (url s) (readyState s) (binaryType s) (onopen s) (onerror s) (onmessage s) (Some h).
End MockWebSocket.

(** ** src/SimpleWebSocket.js *)

Module Options.
Record t : Type := mk {
  url : option string;
  accessToken : option string;
  appId : option string;
  appSecret : option string;
  onConnect : option Callback;
  onMessage : option Callback;
  onError : option Callback;
  onClose : option Callback
}.

(** [{ url: u }] *)
Definition only_url (u : string) : t :=
  mk (Some u) None None None None None None None.

(** [{}] *)
Definition empty : t := mk None None None None None None None None.
End Options.

Module SimpleWebSocket.
(** The instance fields; [None] is a property that is undefined. *)
Record t : Type := mk {
  url : option string;
  accessToken : option string;
  appId : option string;
  appSecret : option string;
  options : Options.t;
  webSocket : option MockWebSocket.t;
  webSocketConnection : option JsValue
}.

Definition set_webSocket (s : MockWebSocket.t) (c : t) : t :=
  mk (url c) (accessToken c) (appId c) (appSecret c) (options c) (Some s)
     (webSocketConnection c).
Definition set_webSocketConnection (v : JsValue) (c : t) : t :=
  mk (url c) (accessToken c) (appId c) (appSecret c) (options c) (webSocket c)
     (Some v).

Definition blank : t := mk None None None None Options.empty None None.

(** [this.webSocket.<prop> = ...] when the socket is there. *)
Definition update_socket (f : MockWebSocket.t → MockWebSocket.t) : M t unit :=
  c ← get_this;
  match webSocket c with
  | Some s => set_this (set_webSocket (f s) c)
  | None => mret ()
  end.

Section Methods.
Context (env : Env).

Definition onError (err : JsValue) : M t unit :=
  c ← get_this;
  match Options.onError (options c) with
  | Some f => call f [err]
  | None => console "error" [JStr "WebSocket Error:"; err]
  end.

Definition onMessage (payload : JsValue) : M t unit :=
  data ← match payload with
         | JUndefined | JNull =>
             throw (JError "TypeError" "Cannot read properties of undefined")
         | _ => mret (get_field payload "data")
         end;
  c ← get_this;
  match Options.onMessage (options c) with
  | Some f => call f [data]
  | None => console "debug" [JStr "WebSocket Message:"; data]
  end.

Definition onClose : M t unit :=
  c ← get_this;
  match Options.onClose (options c) with
  | Some f => call f []
  | None => console "info" [JStr "WebSocket Connection Closed."]
  end.

Definition onConnect (connection : JsValue) : M t unit :=
  c ← get_this;
  set_this (set_webSocketConnection connection c);;
  update_socket (λ s, MockWebSocket.set_onclose HOnClose
                        (MockWebSocket.set_onmessage HOnMessage
                           (MockWebSocket.set_onerror HOnError s)));;
  match Options.onConnect (options c) with
  | Some f => call f [connection]
  | None => console "info" [JStr "WebSocket Connection established."]
  end.

(** Calling a bound method through a socket's [on...] property. *)
Definition run_handler (h : Handler) (arg : JsValue) : M t unit :=
  match h with
  | HOnConnect => onConnect arg
  | HOnError => onError arg
  | HOnMessage => onMessage arg
  | HOnClose => onClose
  end.

(** [new window.WebSocket(u)] *)
Definition new_WebSocket (u : string) : M t MockWebSocket.t :=
  effect (ESocketNew u);;
  match WebSocket_new env u with
  | Some e => throw e
  | None => mret (MockWebSocket.create u)
  end.

Definition connect : M t unit :=
  if has_WebSocket env then
    c ← get_this;
    url0 ← match URL_parse env (js_string (url c)) with
           | Some u => mret u
           | None => throw (JError "TypeError" "Invalid URL")
           end;
    let url1 := if truthy_str (appId c)
                then URL.append url0 "appId" (js_string (appId c)) else url0 in
    let url2 := if truthy_str (appSecret c)
                then URL.append url1 "appSecret" (js_string (appSecret c)) else url1 in
    let url3 := if truthy_str (accessToken c)
                then URL.append url2 "token" (js_string (accessToken c)) else url2 in
    let href := URL.toString (URL_encode env) url3 in
    console "log" [JStr "Connecting to WebSocket:"; JStr href];;
    try_catch
      (s ← new_WebSocket href;
       c ← get_this;
       set_this (set_webSocket s c);;
       update_socket (MockWebSocket.set_binaryType "arraybuffer");;
       update_socket (MockWebSocket.set_onopen HOnConnect);;
       update_socket (MockWebSocket.set_onerror HOnError);;
       update_socket (MockWebSocket.set_onmessage HOnMessage);;
       update_socket (MockWebSocket.set_onclose HOnClose))
      (λ error,
         console "error" [JStr "Failed to create WebSocket connection:"; error];;
         onError error)
  else
    onError (JError "Error" "WebSocket is not supported in this environment").

Definition constructor (options : Options.t) : M t unit :=
  if negb (truthy_str (Options.url options)) then
    throw (JError "Error" "url is required in the options.")
  else
    c ← get_this;
    set_this (mk (Options.url options)
                 (js_or (Options.accessToken options) (Some ""))
                 (Options.appId options)
                 (Options.appSecret options)
                 options
                 (webSocket c) (webSocketConnection c));;
    connect.

(** [new SimpleWebSocket(options)]: the constructor runs on a fresh
    object, none of whose properties is defined yet. *)
Definition new (options : Options.t) : Outcome unit * World t :=
  constructor options (mkWorld blank []).

(** [if (cb) cb(...args) else console[level](...logged)] *)
Definition report (cb : option Callback) (args : list JsValue)
    (level : string) (logged : list JsValue) : M t unit :=
  match cb with
  | Some f => call f args
  | None => console level logged
  end.

(** [this.webSocket.send(data)] *)
Definition socket_send (data : JsValue) : M t unit :=
  effect (ESocketSend data);;
  match WebSocket_send env data with
  | Some e => throw e
  | None => mret ()
  end.

Definition send (data : JsValue) (cb : option Callback) : M t unit :=
  if negb (truthy data) then
    let error := JObject [("message", JStr "undefined data detected.")] in
    report cb [error] "warn" [get_field error "message"]
  else
    c ← get_this;
    match webSocket c with
    | None =>
        let error := JObject [("message", JStr "WebSocket not initialized.")] in
        report cb [error] "warn" [get_field error "message"]
    | Some s =>
        try_catch
          (if MockWebSocket.readyState s =? 1 then
             socket_send data;;
             match cb with
             | Some f => call f [JNull; JObject [("success", JBool true)]]
             | None => mret ()
             end
           else
             let error :=
               JObject [("message",
                         JStr "WebSocket Connection not open. Couldn't send data.");
                        ("readyState", JNum (MockWebSocket.readyState s))] in
             report cb [error] "warn" [get_field error "message"])
          (λ e,
             let error := JObject [("message", JStr "Error while sending the data.");
                                   ("originalError", e)] in
             report cb [error] "error" [JStr "Error while sending the data:"; e])
    end.

(** [MockWebSocket.close()] *)
Definition socket_close : M t unit :=
  effect ESocketClose;;
  update_socket (MockWebSocket.set_readyState 3);;
  c ← get_this;
  match webSocket c ≫= MockWebSocket.onclose with
  | Some h => effect (ETransportEvent "close");; run_handler h (JObject [])
  | None => mret ()
  end.

Definition disconnect : M t unit :=
  c ← get_this;
  match webSocket c with
  | Some _ => socket_close
  | None => mret ()
  end.

Definition getStatus : M t JsValue :=
  c ← get_this;
  match webSocket c with
  | None =>
      mret (JObject [("connected", JBool false);
                     ("readyState", JStr "NOT_INITIALIZED");
                     ("url", of_opt (url c))])
  | Some s =>
      mret (JObject [("connected", JBool (MockWebSocket.readyState s =? 1));
                     ("readyState", JNum (MockWebSocket.readyState s));
                     ("url", of_opt (url c));
                     ("appId", of_opt (appId c));
                     ("hasAppSecret", JBool (truthy_str (appSecret c)));
                     ("hasAccessToken", JBool (truthy_str (accessToken c)))])
  end.

(** The timer [MockWebSocket]'s constructor arms: the socket opens. *)
Definition socket_open : M t unit :=
  update_socket (MockWebSocket.set_readyState 1);;
  c ← get_this;
  match webSocket c ≫= MockWebSocket.onopen with
  | Some h => effect (ETransportEvent "open");; run_handler h (JObject [])
  | None => mret ()
  end.

(** The timer [MockWebSocket.send] arms: a frame arrives. *)
Definition socket_message (data : JsValue) : M t unit :=
  c ← get_this;
  match webSocket c ≫= MockWebSocket.onmessage with
  | Some h =>
      effect (ETransportEvent "message");;
      run_handler h (JObject [("data", data)])
  | None => mret ()
  end.
End Methods.
End SimpleWebSocket.

(** ** The event client (WebSocketClient) *)

(** Modelled from the spec: [src/WebSocketClient.js] is not part of the
    sources at hand; this module follows the design document's sections on
    the data model, the event dispatcher, the envelope codec and the client
    facade. *)
Module WebSocketClient.
(** Modelled from the spec: the client's attributes, with the event
    registrations as a map from event name to the callbacks in insertion
    order. *)
Record t : Type := mk {
  open : bool;
  connectionId : option string;
  debug : bool;
  messageQueue : list JsValue;
  callbacks : gmap string (list Callback)
}.

Definition set_open (b : bool) (c : t) : t :=
  mk b (connectionId c) (debug c) (messageQueue c) (callbacks c).
Definition set_connectionId (i : option string) (c : t) : t :=
  mk (open c) i (debug c) (messageQueue c) (callbacks c).
Definition set_callbacks (r : gmap string (list Callback)) (c : t) : t :=
  mk (open c) (connectionId c) (debug c) (messageQueue c) r.

(** Modelled from the spec: a client on construction, closed and with
    no registrations. *)
Definition initial : t := mk false None false [] ∅.

(** Modelled from the spec: the reserved wildcard name. *)
Definition wildcard : string := "*".

(** Modelled from the spec: the callbacks registered under a name. *)
Definition registered (c : t) (eventName : string) : list Callback :=
  default [] (callbacks c !! eventName).


(** Modelled from the spec: the three classes of inbound frame. *)
Inductive Inbound : Type :=
| Pong (raw : string)
| Structured (eventName : string) (payload : JsValue)
| Raw (payload : JsValue).

Section Methods.
(** [JSON.parse], [None] on a syntax error, and [JSON.stringify]. *)
Context (JSON_parse : string → option JsValue).
Context (JSON_stringify : JsValue → string).

(** Modelled from the spec: the debug/log channel. *)
Definition debug_log (args : list JsValue) : M t unit :=
  c ← get_this;
  if debug c then console "log" args else mret ().

(** Modelled from the spec: [on(eventName, callback)] registers the
    callback after the ones already there. *)
Definition on (eventName : string) (callback : Callback) : M t Callback :=
  c ← get_this;
  set_this (set_callbacks
              (<[eventName := registered c eventName ++ [callback]]> (callbacks c))
              c);;
  mret callback.


(** Modelled from the spec: [listen(action, callback)] is [on], the
    wildcard name included. *)
Definition listen (action : string) (callback : Callback) : M t Callback :=
  on action callback.

(** Modelled from the spec: one pass over a snapshot of callbacks; a
    callback that throws is reported and the pass goes on. *)
Fixpoint invoke_all (l : list Callback) (payload : JsValue) : M t unit :=
  match l with
  | [] => mret ()
  | f :: l' =>
      try_catch (call f [payload])
                (λ e, debug_log [JStr "Error in event callback:"; e]);;
      invoke_all l' payload
  end.

(** Modelled from the spec: [dispatch(eventName, payload)] invokes the
    callbacks under the name, then the wildcard ones, both lists taken
    before the first call. *)
Definition dispatch (eventName : string) (payload : JsValue) : M t unit :=
  c ← get_this;
  let named := registered c eventName in
  let every := registered c wildcard in
  invoke_all named payload;;
  invoke_all every payload.

(** Modelled from the spec: a field usable as an event name. *)
Definition name_field (k : string) (fs : list (string * JsValue)) : option string :=
  match assoc k fs with
  | Some (JStr s) => Some s
  | _ => None
  end.

(** Modelled from the spec: the decoder.  The pong sentinel and the
    empty frame are recognised on the raw text; anything else goes
    through [JSON.parse]. *)
Definition classify (raw : string) : M t Inbound :=
  if String.eqb raw "Pong" || String.eqb raw "" then
    mret (Pong raw)
  else
    effect (EJsonParse raw);;
    let rawPayload := JObject [("event", JStr "message");
                               ("data", JStr raw);
                               ("original", JStr raw)] in
    match JSON_parse raw with
    | Some (JObject fs) =>
        if bool_decide (is_Some (assoc "event" fs))
           || bool_decide (is_Some (assoc "action" fs)) then
          let eventName :=
            default (default "message" (name_field "action" fs))
                    (name_field "event" fs) in
          let payload :=
            default (default (JObject fs) (assoc "body" fs)) (assoc "data" fs) in
          mret (Structured eventName payload)
        else mret (Raw rawPayload)
    | _ => mret (Raw rawPayload)
    end.

(** Modelled from the spec: the handler of the transport's [message]
    event for one raw frame. *)
Definition receive (raw : string) : M t unit :=
  i ← classify raw;
  match i with
  | Pong frame => dispatch "Pong" (JStr frame)
  | Structured eventName payload => dispatch eventName payload
  | Raw payload => dispatch "message" payload
  end.

(** Modelled from the spec: the transport's open and close events set
    the [open] flag and are dispatched with the raw event. *)
Definition handle_open (event : JsValue) : M t unit :=
  c ← get_this;
  set_this (set_open true c);;
  dispatch "open" (JObject [("event", event)]).
Definition handle_close (event : JsValue) : M t unit :=
  c ← get_this;
  set_this (set_open false c);;
  dispatch "close" (JObject [("event", event)]).

(** Modelled from the spec: [setConnectionId(id)] stores the identifier. *)
Definition setConnectionId (id : string) : M t unit :=
  c ← get_this;
  set_this (set_connectionId (Some id) c).

(** Modelled from the spec: the transport's [send(text)]. *)
Definition socket_send (text : string) : M t unit :=
  effect (ESocketSend (JStr text)).

(** Modelled from the spec: [emit(action, data?)]; the [data] key is
    left out when no data argument was supplied. *)
Definition emit (action : string) (data : option JsValue) : M t unit :=
  let envelope :=
    match data with
    | Some d => JObject [("action", JStr action); ("data", d)]
    | None => JObject [("action", JStr action)]
    end in
  socket_send (JSON_stringify envelope).

(** Modelled from the spec: [message(data?)] and [chatMessage(data?)]. *)
Definition message (data : JsValue) : M t unit :=
  socket_send (JSON_stringify (JObject [("action", JStr "message"); ("body", data)])).
Definition chatMessage (data : JsValue) : M t unit :=
  socket_send (JSON_stringify (JObject [("action", JStr "chatMessage"); ("body", data)])).

(** Modelled from the spec: [ping()] sends the literal sentinel. *)
Definition ping : M t unit :=
  socket_send "Ping".
End Methods.
End WebSocketClient.

(** ** Concrete environments and inputs *)

Module Jsdom.
(** [new URL('wss://test.com')] normalises the empty path. *)
Definition parse (s : string) : option URL.t :=
  if String.eqb s "wss://test.com" then Some (URL.mk "wss://test.com/" [] "")
  else None.

(** The test-suite's browser-like environment. *)
Definition env : Env := mkEnv true parse (λ s, s) (λ _, None) (λ _, None).

(** An environment without [window]. *)
Definition bare : Env := mkEnv false (λ _, None) (λ s, s) (λ _, None) (λ _, None).

(** [jest.fn()] *)
Definition quiet (id : nat) : Callback := mkCallback id (λ _, None).

(** [() => { throw new Error('boom') }] *)
Definition failing (id : nat) : Callback :=
  mkCallback id (λ _, Some (JError "Error" "boom")).

(** [new SimpleWebSocket({ url: 'wss://test.com' })], before the mock's
    timer has opened the socket, and after. *)
Definition connecting : World SimpleWebSocket.t :=
  Eval vm_compute in
    (SimpleWebSocket.new env (Options.only_url "wss://test.com")).2.
Definition opened : World SimpleWebSocket.t :=
  Eval vm_compute in (SimpleWebSocket.socket_open connecting).2.

(** The same construction where there is no [window]. *)
Definition unsupported : World SimpleWebSocket.t :=
  Eval vm_compute in
    (SimpleWebSocket.new bare (Options.only_url "wss://test.com")).2.

(** All three auth options, and the same with an empty [appId]. *)
Definition all_options : Options.t :=
  Options.mk (Some "wss://test.com") (Some "test-token") (Some "test-app")
             (Some "test-secret") None None None None.
Definition empty_appId : Options.t :=
  Options.mk (Some "wss://test.com") (Some "test-token") (Some "")
             (Some "test-secret") None None None None.

(** An event client with nothing registered, and one with a single
    listener on 'testEvent'. *)
Definition client : World WebSocketClient.t :=
  mkWorld WebSocketClient.initial [].
End Jsdom.

(** ** Reading the log *)

Definition is_socket_send (e : Effect) : bool :=
  match e with ESocketSend _ => true | _ => false end.

Definition is_json_parse (e : Effect) : bool :=
  match e with EJsonParse _ => true | _ => false end.

Definition is_call_of (id : nat) (e : Effect) : bool :=
  match e with ECall g _ => Nat.eqb g id | _ => false end.

(** The URLs handed to [new window.WebSocket], oldest first. *)
Fixpoint handed_urls (l : list Effect) : list string :=
  match l with
  | [] => []
  | ESocketNew u :: l' => handed_urls l' ++ [u]
  | _ :: l' => handed_urls l'
  end.

(** The outcome of a call of [f] that is the last thing a method does. *)
Definition outcome_of (thrown : option JsValue) : Outcome unit :=
  match thrown with
  | Some e => Thrown e
  | None => Returned ()
  end.

(** How one error report shows in the log: a call [cb(error)] when a
    callback was supplied, else one console line. *)
Definition reported_error (cb : option Callback) (error : JsValue) (e : Effect) : Prop :=
  match cb with
  | Some f => e = ECall (cb_id f) [error]
  | None => ∃ level args, e = EConsole level args
  end.

(** How a successful send shows in the log: [cb(null, { success: true })]
    when a callback was supplied, else nothing. *)
Definition reported_success (cb : option Callback) : list Effect :=
  match cb with
  | Some f => [ECall (cb_id f) [JNull; JObject [("success", JBool true)]]]
  | None => []
  end.

(** A callback that returns normally whatever it is handed. *)
Definition never_throws (cb : option Callback) : Prop :=
  ∀ f, cb = Some f → ∀ args, cb_run f args = None.

(** The query parameters [connect] appends for one set of options, in
    order; a value that is undefined or empty is passed over. *)
Definition auth_param (name : string) (value : option string) : list (string * string) :=
  if truthy_str value then [(name, js_string value)] else [].

Definition auth_params (o : Options.t) : list (string * string) :=
  auth_param "appId" (Options.appId o)
  ++ auth_param "appSecret" (Options.appSecret o)
  ++ auth_param "token" (Options.accessToken o).

(** What can happen to a constructed client: calls of its public methods
    and the events of its [MockWebSocket]. *)
Inductive Action : Type :=
| ASend (data : JsValue) (cb : option Callback)
| ADisconnect
| AGetStatus
| TOpen
| TMessage (data : JsValue)
| TClose.

(** The world after one action; an exception leaves the caller, the world
    stays as the action left it. *)
Definition step (env : Env) (a : Action) (w : World SimpleWebSocket.t)
    : World SimpleWebSocket.t :=
  match a with
  | ASend data cb => (SimpleWebSocket.send env data cb w).2
  | ADisconnect => (SimpleWebSocket.disconnect w).2
  | AGetStatus => (SimpleWebSocket.getStatus w).2
  | TOpen => (SimpleWebSocket.socket_open w).2
  | TMessage data => (SimpleWebSocket.socket_message data w).2
  | TClose => (SimpleWebSocket.socket_close w).2
  end.

Definition run_actions (env : Env) (l : list Action) (w : World SimpleWebSocket.t)
    : World SimpleWebSocket.t :=
  foldl (λ w a, step env a w) w l.

(** The most recent open or close event of the transport in a log:
    [Some true] for open, [Some false] for close. *)
Fixpoint last_open_close (l : list Effect) : option bool :=
  match l with
  | [] => None
  | ETransportEvent n :: l' =>
      if String.eqb n "open" then Some true
      else if String.eqb n "close" then Some false
      else last_open_close l'
  | _ :: l' => last_open_close l'
  end.

(** Whether that most recent event, if any, was an open. *)
Definition last_event_is_open (l : list Effect) : bool :=
  match last_open_close l with
  | Some true => true
  | _ => false
  end.

(** The [connected] flag of a status snapshot. *)
Definition connected (status : JsValue) : JsValue := get_field status "connected".

(** The socket's [readyState] agrees with the last open or close event
    the transport fired, and the client's handlers are in place to see the
    next one. *)
Definition consistent (w : World SimpleWebSocket.t) : Prop :=
  match SimpleWebSocket.webSocket (this w) with
  | None => last_open_close (log w) = None
  | Some s =>
      MockWebSocket.onopen s = Some HOnConnect
      ∧ MockWebSocket.onclose s = Some HOnClose
      ∧ (MockWebSocket.readyState s =? 1) = last_event_is_open (log w)
  end.

(** How often a log records a call of the function [id]. *)
Fixpoint calls_of (id : nat) (l : list Effect) : nat :=
  match l with
  | [] => 0%nat
  | e :: l' => ((if is_call_of id e then 1 else 0) + calls_of id l')%nat
  end.

(** How many registrations of the callback [id] a list holds. *)
Fixpoint registrations (id : nat) (l : list Callback) : nat :=
  match l with
  | [] => 0%nat
  | f :: l' => ((if Nat.eqb (cb_id f) id then 1 else 0) + registrations id l')%nat
  end.


(** ** The reconnecting transport of the event client's tests *)

(** [MockReconnectingWebSocket] of the event client's test-suite: a socket
    with a listener registry, whose replies arrive through timers.  All
    its timers have the same delay, so they fire in the order they were
    armed; the queue of armed timers is kept beside the socket's fields. *)
Module MockReconnectingWebSocket.
(** What a timer does when it fires. *)
Inductive Task : Type :=
| OpenTask                      (* readyState = 1; triggerEvent('open', {}) *)
| MessageTask (data : JsValue). (* triggerEvent('message', { data }) *)

Record t : Type := mk {
  url : string;
  protocols : JsValue;
  options : JsValue;
  readyState : Z;
  listeners : gmap string (list Callback);
  timers : list Task            (* armed timers, oldest first *)
}.

Definition set_readyState (n : Z) (s : t) : t :=
  mk (url s) (protocols s) (options s) n (listeners s) (timers s).
Definition set_listeners (m : gmap string (list Callback)) (s : t) : t :=
  mk (url s) (protocols s) (options s) (readyState s) m (timers s).
Definition set_timers (q : list Task) (s : t) : t :=
  mk (url s) (protocols s) (options s) (readyState s) (listeners s) q.

(** [new MockReconnectingWebSocket(url, protocols, options)] *)
Definition create (u : string) (protocols options : JsValue) : t :=
  mk u protocols options 0 ∅ [OpenTask].

(** [this.listeners.get(event)], or no listeners at all. *)
Definition registered (s : t) (event : string) : list Callback :=
  default [] (listeners s !! event).

(** [listeners.indexOf(callback)], functions compared by identity. *)
Fixpoint indexOf (id : nat) (l : list Callback) : option nat :=
  match l with
  | [] => None
  | f :: l' => if Nat.eqb (cb_id f) id then Some 0%nat else S <$> indexOf id l'
  end.

(** [setTimeout(task, 10)] *)
Definition setTimeout (task : Task) : M t unit :=
  s ← get_this;
  set_this (set_timers (timers s ++ [task]) s).

Definition addEventListener (event : string) (callback : Callback) : M t unit :=
  s ← get_this;
  let l := match listeners s !! event with
           | Some l => l
           | None => []
           end in
  set_this (set_listeners (<[event := l ++ [callback]]> (listeners s)) s).

Definition removeEventListener (event : string) (callback : Callback) : M t unit :=
  s ← get_this;
  match listeners s !! event with
  | Some l =>
      match indexOf (cb_id callback) l with
      | Some index => set_this (set_listeners (<[event := delete index l]> (listeners s)) s)
      | None => mret ()
      end
  | None => mret ()
  end.

(** [listeners.forEach(callback => callback(data))] *)
Fixpoint forEach (l : list Callback) (data : JsValue) : M t unit :=
  match l with
  | [] => mret ()
  | f :: l' => call f [data];; forEach l' data
  end.

Definition triggerEvent (event : string) (data : JsValue) : M t unit :=
  s ← get_this;
  match listeners s !! event with
  | Some l => forEach l data
  | None => mret ()
  end.

Definition close : M t unit :=
  s ← get_this;
  set_this (set_readyState 3 s);;
  triggerEvent "close" (JObject []).

(** [data === 'Ping'] *)
Definition is_ping (data : JsValue) : bool :=
  match data with
  | JStr s => String.eqb s "Ping"
  | _ => false
  end.

Definition send (data : JsValue) : M t unit :=
  if is_ping data then setTimeout (MessageTask (JStr "Pong"))
  else setTimeout (MessageTask data).

(** The oldest armed timer fires. *)
Definition run_timer : M t unit :=
  s ← get_this;
  match timers s with
  | [] => mret ()
  | task :: rest =>
      set_this (set_timers rest s);;
      match task with
      | OpenTask =>
          s ← get_this;
          set_this (set_readyState 1 s);;
          triggerEvent "open" (JObject [])
      | MessageTask data => triggerEvent "message" (JObject [("data", data)])
      end
  end.
End MockReconnectingWebSocket.

(** ** More readers of the client and its log *)

(** The payloads handed to the transport's [send], oldest first. *)
Fixpoint sent_payloads (l : list Effect) : list JsValue :=
  match l with
  | [] => []
  | ESocketSend d :: l' => sent_payloads l' ++ [d]
  | _ :: l' => sent_payloads l'
  end.

(** [this.webSocket && this.webSocket.readyState === 1] *)
Definition is_open (c : SimpleWebSocket.t) : bool :=
  match SimpleWebSocket.webSocket c with
  | Some s => MockWebSocket.readyState s =? 1
  | None => false
  end.

(** What the constructor copies from the options. *)
Definition config (c : SimpleWebSocket.t)
    : option string * option string * option string * option string * Options.t :=
  (SimpleWebSocket.url c, SimpleWebSocket.accessToken c, SimpleWebSocket.appId c,
   SimpleWebSocket.appSecret c, SimpleWebSocket.options c).

(** The four handlers [connect] and [onConnect] install. *)
Definition wired (s : MockWebSocket.t) : Prop :=
  MockWebSocket.onopen s = Some HOnConnect
  ∧ MockWebSocket.onerror s = Some HOnError
  ∧ MockWebSocket.onmessage s = Some HOnMessage
  ∧ MockWebSocket.onclose s = Some HOnClose.

(** The log entry of [if (f) f(...args) else console[level](...logged)],
    and how that statement ends. *)
Definition notified (f : option Callback) (args : list JsValue)
    (level : string) (logged : list JsValue) : Effect :=
  match f with
  | Some f => ECall (cb_id f) args
  | None => EConsole level logged
  end.

Definition notify_outcome (f : option Callback) (args : list JsValue) : Outcome unit :=
  match f with
  | Some f => outcome_of (cb_run f args)
  | None => Returned ()
  end.

(** More concrete inputs. *)
Module Samples.
(** A WebSocket constructor that throws, and a transport whose [send]
    throws. *)
Definition refusing : Env :=
  mkEnv true Jsdom.parse (λ s, s) (λ _, Some (JError "SyntaxError" "refused"))
        (λ _, None).
Definition broken_pipe : Env :=
  mkEnv true Jsdom.parse (λ s, s) (λ _, None)
        (λ _, Some (JError "InvalidStateError" "broken")).

(** Options with every callback a [jest.fn()]. *)
Definition observed : Options.t :=
  Options.mk (Some "wss://test.com") None None None
             (Some (Jsdom.quiet 11)) (Some (Jsdom.quiet 12))
             (Some (Jsdom.quiet 13)) (Some (Jsdom.quiet 14)).
Definition observed_connecting : World SimpleWebSocket.t :=
  Eval vm_compute in (SimpleWebSocket.new Jsdom.env observed).2.

Definition idle : World MockReconnectingWebSocket.t :=
  mkWorld (MockReconnectingWebSocket.mk "wss://test.com" JUndefined JUndefined 1
             (<["message" := [Jsdom.quiet 1; Jsdom.quiet 2]]> ∅) []) [].

End Samples.

(** ** [window.WebSocket] outside the tests *)

(** The socket [connect] constructs in a browser, with the fields of the
    test double.  Its [close()] only starts the closing handshake:
    [readyState] becomes 2 (closing), unless the socket is already closing
    or closed, and the close event arrives later, with [readyState] 3.
    The open event comes to a socket that is still connecting. *)
Module BrowserWebSocket.
(** [socket.close()] *)
Definition close : M SimpleWebSocket.t unit :=
  effect ESocketClose;;
  SimpleWebSocket.update_socket
    (λ s, if (MockWebSocket.readyState s =? 2) || (MockWebSocket.readyState s =? 3)
          then s else MockWebSocket.set_readyState 2 s).

(** [SimpleWebSocket.disconnect()] on a client that holds this socket. *)
Definition disconnect : M SimpleWebSocket.t unit :=
  c ← get_this;
  match SimpleWebSocket.webSocket c with
  | Some _ => close
  | None => mret ()
  end.

(** The connection is established: the open event. *)
Definition opened : M SimpleWebSocket.t unit :=
  c ← get_this;
  match SimpleWebSocket.webSocket c with
  | Some s => if MockWebSocket.readyState s =? 0 then SimpleWebSocket.socket_open
              else mret ()
  | None => mret ()
  end.

(** The connection is gone: the close event. *)
Definition closed : M SimpleWebSocket.t unit :=
  SimpleWebSocket.update_socket (MockWebSocket.set_readyState 3);;
  c ← get_this;
  match SimpleWebSocket.webSocket c ≫= MockWebSocket.onclose with
  | Some h =>
      effect (ETransportEvent "close");;
      SimpleWebSocket.run_handler h (JObject [])
  | None => mret ()
  end.
End BrowserWebSocket.

(** What can happen to a client that holds a browser's socket. *)
Inductive BrowserAction : Type :=
| BSend (data : JsValue) (cb : option Callback)
| BDisconnect
| BGetStatus
| BOpened
| BMessage (data : JsValue)
| BClosed.

Definition browser_step (env : Env) (a : BrowserAction) (w : World SimpleWebSocket.t)
    : World SimpleWebSocket.t :=
  match a with
  | BSend data cb => (SimpleWebSocket.send env data cb w).2
  | BDisconnect => (BrowserWebSocket.disconnect w).2
  | BGetStatus => (SimpleWebSocket.getStatus w).2
  | BOpened => (BrowserWebSocket.opened w).2
  | BMessage data => (SimpleWebSocket.socket_message data w).2
  | BClosed => (BrowserWebSocket.closed w).2
  end.

Definition browser_run (env : Env) (l : list BrowserAction)
    (w : World SimpleWebSocket.t) : World SimpleWebSocket.t :=
  foldl (λ w a, browser_step env a w) w l.

(** The client's handlers are in place, and a socket with [readyState] 1
    has an open event as the last open or close event seen. *)
Definition open_was_seen (w : World SimpleWebSocket.t) : Prop :=
  match SimpleWebSocket.webSocket (this w) with
  | None => True
  | Some s =>
      MockWebSocket.onopen s = Some HOnConnect
      ∧ ((MockWebSocket.readyState s =? 1) = true → last_event_is_open (log w) = true)
  end.

(** ** Listeners that act on the reconnecting mock *)

(** [triggerEvent] as [Array.prototype.forEach] runs it: the length of
    the listener array is read once, and at each index below it the array
    is read again, so that a listener which adds or removes listeners of
    the event during the pass is seen by the rest of the pass.  What
    calling a listener does to the socket is [listen]. *)
Module LiveListeners.
Section Pass.
Context (listen : Callback → JsValue → M MockReconnectingWebSocket.t unit).

(** The pass from index [k], with [n] indices left to visit. *)
Fixpoint forEach_from (n k : nat) (event : string) (data : JsValue)
    : M MockReconnectingWebSocket.t unit :=
  match n with
  | O => mret ()
  | S n' =>
      s ← get_this;
      match MockReconnectingWebSocket.registered s event !! k with
      | Some f => listen f data;; forEach_from n' (S k) event data
      | None => forEach_from n' (S k) event data
      end
  end.

Definition triggerEvent (event : string) (data : JsValue)
    : M MockReconnectingWebSocket.t unit :=
  s ← get_this;
  match MockReconnectingWebSocket.listeners s !! event with
  | Some l => forEach_from (length l) 0 event data
  | None => mret ()
  end.

(** The listeners of a list called one after the other. *)
Fixpoint call_each (l : list Callback) (data : JsValue)
    : M MockReconnectingWebSocket.t unit :=
  match l with
  | [] => mret ()
  | f :: l' => listen f data;; call_each l' data
  end.

(** A listener that leaves the listeners of an event as they are. *)
Definition leaves_alone (event : string) (data : JsValue) (f : Callback) : Prop :=
  ∀ w, MockReconnectingWebSocket.registered (this (listen f data w).2) event
       = MockReconnectingWebSocket.registered (this w) event.
End Pass.

(** Listeners that only return or throw, as [cb_run] says. *)
Definition plain (f : Callback) (data : JsValue) : M MockReconnectingWebSocket.t unit :=
  call f [data].

(** The same, except that the listener [self] also removes itself from
    the event, as a run-once listener does. *)
Definition once (event : string) (self : Callback) (f : Callback) (data : JsValue)
    : M MockReconnectingWebSocket.t unit :=
  call f [data];;
  if Nat.eqb (cb_id f) (cb_id self)
  then MockReconnectingWebSocket.removeEventListener event f
  else mret ().
End LiveListeners.

(** ** Proof automation *)

Ltac unfold_monad :=
  unfold mbind, M_bind, mret, M_ret, bind, ret, throw, try_catch, get_this,
    set_this, console, effect, call in *.

Ltac run := unfold_monad; cbn [this log fst snd] in *.

(** Closes the error branch of a report with the error object at hand. *)
Ltac error_case E :=
  left; exists E; do 2 eexists;
  split; [reflexivity |]; split; [reflexivity |];
  split; [first [reflexivity | by do 2 eexists] | first [by left | by right]].

(** * SimpleWebSocket *)

Section SimpleWebSocketFacts.
Import SimpleWebSocket.
Context (env : Env).

Lemma truthy_str_Some (s : string) : s ≠ "" → truthy_str (Some s) = true.
Proof.
  intros Hs. unfold truthy_str.
  destruct (String.eqb_spec s "") as [->|_]; [congruence | reflexivity].
Qed.

(** C1 (as amended).  [new SimpleWebSocket(options)] without a url (or
    with an empty one) throws the configuration error before anything
    else happens; with only a non-empty url, which [URL] accepts wherever a
    WebSocket is available, it returns normally and leaves [appId] and
    [appSecret] undefined and [accessToken] the empty string. *)
Theorem new_requires_url (o : Options.t) (u : string) :
  (truthy_str (Options.url o) = false →
   new env o = (Thrown (JError "Error" "url is required in the options."),
                mkWorld blank []))
  ∧ (u ≠ "" →
     (has_WebSocket env = true → is_Some (URL_parse env u)) →
     ∃ w, new env (Options.only_url u) = (Returned (), w)
          ∧ url (this w) = Some u
          ∧ appId (this w) = None
          ∧ appSecret (this w) = None
          ∧ accessToken (this w) = Some "").
Proof.
  split.
  - intros Ho. unfold new, constructor. rewrite Ho. reflexivity.
  - intros Hu Hparse.
    unfold new, constructor, Options.only_url. cbn [Options.url].
    rewrite (truthy_str_Some u Hu). cbn [negb].
    unfold connect, onError, new_WebSocket, update_socket. run.
    destruct (has_WebSocket env) eqn:Hws.
    + destruct (Hparse eq_refl) as [p Hp]. cbn. rewrite Hp. cbn.
      destruct (WebSocket_new env _); cbn; eexists; repeat split; reflexivity.
    + cbn. eexists; repeat split; reflexivity.
Qed.

(** C3.  [send(undefined, cb)] calls [cb] once, with the error whose
    message is 'undefined data detected.', in every state of the client
    and of its socket; nothing else is done, so the transport never sees
    the payload. *)
Theorem send_undefined (cb : Callback) (w : World t) :
  let error := JObject [("message", JStr "undefined data detected.")] in
  send env JUndefined (Some cb) w =
    (outcome_of (cb_run cb [error]),
     mkWorld (this w) (ECall (cb_id cb) [error] :: log w))
  ∧ get_field error "message" = JStr "undefined data detected.".
Proof.
  cbn zeta. split; [| reflexivity].
  unfold send, report. cbn [truthy negb]. run.
  destruct (cb_run cb _); reflexivity.
Qed.

(** C9.  Every falsy payload is answered like [undefined]: one call of
    [cb] with the error 'undefined data detected.', whatever the state of
    the socket, and no call into the transport. *)
Theorem send_falsy (data : JsValue) (cb : Callback) (w : World t) :
  truthy data = false →
  let error := JObject [("message", JStr "undefined data detected.")] in
  send env data (Some cb) w =
    (outcome_of (cb_run cb [error]),
     mkWorld (this w) (ECall (cb_id cb) [error] :: log w))
  ∧ get_field error "message" = JStr "undefined data detected.".
Proof.
  intros Hd. cbn zeta. split; [| reflexivity].
  unfold send, report. rewrite Hd. cbn [negb]. run.
  destruct (cb_run cb _); reflexivity.
Qed.

(** How a constructed client comes to have no socket: there is no
    WebSocket to construct, or its constructor threw. *)
Lemma new_without_socket (o : Options.t) (u : string) :
  Options.url o = Some u →
  u ≠ "" →
  has_WebSocket env = false
  ∨ (is_Some (URL_parse env u) ∧ ∀ href, is_Some (WebSocket_new env href)) →
  webSocket (this (new env o).2) = None.
Proof.
  intros Ho Hu Hwhy. unfold new, constructor.
  rewrite Ho, (truthy_str_Some u Hu). cbn [negb].
  unfold connect, new_WebSocket, update_socket, onError. run.
  destruct Hwhy as [-> | [[p Hp] Hthrow]].
  - cbn. by destruct (Options.onError o) as [f|]; cbn; [destruct (cb_run f _) |].
  - destruct (has_WebSocket env); cbn.
    + rewrite Hp. cbn.
      match goal with |- context [WebSocket_new env ?h] =>
        destruct (Hthrow h) as [e ->] end.
      cbn. by destruct (Options.onError o) as [f|]; cbn; [destruct (cb_run f _) |].
    + by destruct (Options.onError o) as [f|]; cbn; [destruct (cb_run f _) |].
Qed.

(** C10.  Without a socket object a truthy payload is answered with the
    error 'WebSocket not initialized.', which is not the message of a
    socket that is not open, and [getStatus()] returns
    [{ connected: false, readyState: 'NOT_INITIALIZED', url }], the ready
    state being a string. *)
Theorem no_socket_send_and_status (data : JsValue) (cb : Callback) (w : World t) :
  webSocket (this w) = None →
  let error := JObject [("message", JStr "WebSocket not initialized.")] in
  (truthy data = true →
   send env data (Some cb) w =
     (outcome_of (cb_run cb [error]),
      mkWorld (this w) (ECall (cb_id cb) [error] :: log w)))
  ∧ get_field error "message" = JStr "WebSocket not initialized."
  ∧ get_field error "message"
      ≠ JStr "WebSocket Connection not open. Couldn't send data."
  ∧ getStatus w =
      (Returned (JObject [("connected", JBool false);
                          ("readyState", JStr "NOT_INITIALIZED");
                          ("url", of_opt (url (this w)))]),
       w).
Proof.
  intros Hs. cbn zeta. split; [| split; [reflexivity | split; [discriminate |]]].
  - intros Hd. unfold send, report. rewrite Hd. cbn [negb]. run. rewrite Hs.
    destruct (cb_run cb _); reflexivity.
  - unfold getStatus. run. rewrite Hs. reflexivity.
Qed.

(** C2 (as amended).  With a truthy payload and a socket whose
    [readyState] is not 1, [send] first calls [cb] with the error whose
    message is "WebSocket Connection not open. Couldn't send data.",
    never calls the transport's [send] and leaves the client as it was;
    it returns normally when that call of [cb] does. *)
Theorem send_not_open (data : JsValue) (cb : Callback) (w : World t)
    (s : MockWebSocket.t) :
  truthy data = true →
  webSocket (this w) = Some s →
  MockWebSocket.readyState s ≠ 1 →
  let error :=
    JObject [("message", JStr "WebSocket Connection not open. Couldn't send data.");
             ("readyState", JNum (MockWebSocket.readyState s))] in
  get_field error "message"
    = JStr "WebSocket Connection not open. Couldn't send data."
  ∧ ∃ r w' new,
      send env data (Some cb) w = (r, w')
      ∧ this w' = this w
      ∧ log w' = (new ++ ECall (cb_id cb) [error] :: log w)
      ∧ Forall (λ e, is_socket_send e = false) new
      ∧ (cb_run cb [error] = None → r = Returned () ∧ new = []).
Proof.
  intros Hd Hs Hr. cbn zeta. split; [reflexivity |].
  unfold send, report. rewrite Hd. cbn [negb]. run. rewrite Hs.
  apply Z.eqb_neq in Hr. rewrite Hr.
  destruct (cb_run cb [JObject [("message", _); ("readyState", _)]]) as [e|] eqn:He.
  - destruct (cb_run cb [JObject [("message", _); ("originalError", _)]]);
      do 2 eexists; eexists [_]; cbn;
      (split; [reflexivity |]); (split; [reflexivity |]); (split; [reflexivity |]);
      (split; [by repeat constructor | discriminate]).
  - do 2 eexists; exists []; cbn.
    split; [reflexivity |]. split; [reflexivity |]. split; [reflexivity |].
    split; [constructor | done].
Qed.

(** C4 (as amended).  When [cb] is absent or never throws, [send]
    returns normally for every payload, every client state and every
    behaviour of the transport, leaves the client unchanged, and reports
    exactly once: an error, carrying a string [message], through
    [cb(error)] or else on the console, or a success through
    [cb(null, { success: true })] after the transport took the payload. *)
Theorem send_total (data : JsValue) (cb : option Callback) (w : World t) :
  never_throws cb →
  ∃ new,
    send env data cb w = (Returned (), mkWorld (this w) (new ++ log w))
    ∧ ((∃ error m e,
          get_field error "message" = JStr m
          ∧ has_field error "message" = true
          ∧ reported_error cb error e
          ∧ (new = [e] ∨ new = [e; ESocketSend data]))
       ∨ new = (reported_success cb ++ [ESocketSend data])).
Proof.
  intros Hcb. unfold send, report.
  destruct (truthy data); cbn [negb].
  - run. destruct (webSocket (this w)) as [s|].
    + destruct (MockWebSocket.readyState s =? 1).
      * unfold socket_send. run.
        destruct (WebSocket_send env data) as [e|].
        -- destruct cb as [f|]; [rewrite (Hcb f eq_refl) |];
             (eexists [_; _]; split; [reflexivity |]);
             error_case
               (JObject [("message", JStr "Error while sending the data.");
                         ("originalError", e)]).
        -- destruct cb as [f|]; [rewrite (Hcb f eq_refl) |];
             [eexists [_; _] | eexists [_]]; (split; [reflexivity |]); by right.
      * destruct cb as [f|]; [rewrite (Hcb f eq_refl) |];
          (eexists [_]; split; [reflexivity |]);
          error_case
            (JObject [("message",
                       JStr "WebSocket Connection not open. Couldn't send data.");
                      ("readyState", JNum (MockWebSocket.readyState s))]).
    + destruct cb as [f|]; [rewrite (Hcb f eq_refl) |];
        (eexists [_]; split; [reflexivity |]);
        error_case (JObject [("message", JStr "WebSocket not initialized.")]).
  - run. destruct cb as [f|]; [rewrite (Hcb f eq_refl) |];
      (eexists [_]; split; [reflexivity |]);
      error_case (JObject [("message", JStr "undefined data detected.")]).
Qed.
End SimpleWebSocketFacts.

Section ConnectFacts.
Import SimpleWebSocket.
Context (env : Env).

Lemma append_auth_param (p : URL.t) (name : string) (value : option string) :
  (if truthy_str value then URL.append p name (js_string value) else p)
  = URL.mk (URL.base p) (URL.searchParams p ++ auth_param name value) (URL.hash p).
Proof.
  unfold auth_param, URL.append. destruct (truthy_str value).
  - reflexivity.
  - rewrite app_nil_r. by destruct p.
Qed.

Lemma truthy_js_or_default (a : option string) :
  truthy_str (js_or a (Some "")) = truthy_str a.
Proof. unfold js_or. by destruct (truthy_str a) eqn:E. Qed.

Lemma auth_param_js_or_default (a : option string) :
  auth_param "token" (js_or a (Some "")) = auth_param "token" a.
Proof.
  unfold auth_param. rewrite truthy_js_or_default.
  unfold js_or. by destruct (truthy_str a).
Qed.

(** C5 (as amended).  Where a WebSocket is available and [URL] accepts
    the configured url, exactly one URL is handed to the transport: the
    parsed url with [appId], [appSecret] and [token] (the access token)
    appended to its query, in this order, each only when its value is a
    non-empty string; with all three non-empty all three are there.  The
    stored [url] is the configured one. *)
Theorem connect_injects_auth (o : Options.t) (u : string) (p : URL.t) :
  let href :=
    URL.toString (URL_encode env)
      (URL.mk (URL.base p) (URL.searchParams p ++ auth_params o) (URL.hash p)) in
  (Options.url o = Some u →
   u ≠ "" →
   has_WebSocket env = true →
   URL_parse env u = Some p →
   ∃ r w, new env o = (r, w)
          ∧ handed_urls (log w) = [href]
          ∧ url (this w) = Some u
          ∧ (WebSocket_new env href = None →
             r = Returned ()
             ∧ MockWebSocket.url <$> webSocket (this w) = Some href))
  ∧ (∀ a s t, Options.appId o = Some a → Options.appSecret o = Some s →
             Options.accessToken o = Some t → a ≠ "" → s ≠ "" → t ≠ "" →
             auth_params o = [("appId", a); ("appSecret", s); ("token", t)]).
Proof.
  cbn zeta. split.
  - intros Ho Hu Hws Hp. unfold new, constructor. rewrite Ho, (truthy_str_Some u Hu). cbn [negb].
    unfold connect. rewrite Hws. run. cbn [url js_string appId appSecret accessToken].
    rewrite Hp. cbn [fst snd].
    rewrite !append_auth_param. cbn [URL.base URL.searchParams URL.hash].
    rewrite auth_param_js_or_default, <- !app_assoc.
    fold (auth_params o).
    set (href := URL.toString _ _).
    unfold new_WebSocket, update_socket, onError. run.
    destruct (WebSocket_new env href) as [e|] eqn:He; cbn.
    + destruct (Options.onError o) as [f|]; cbn.
      * destruct (cb_run f [e]); do 2 eexists; (split; [reflexivity |]);
          cbn; repeat split; discriminate.
      * do 2 eexists; (split; [reflexivity |]); cbn; repeat split; discriminate.
    + do 2 eexists; (split; [reflexivity |]); cbn; repeat split; reflexivity.
  - intros a s t Ha Hs Ht Hane Hsne Htne. unfold auth_params, auth_param.
    rewrite Ha, Hs, Ht, !truthy_str_Some by assumption. reflexivity.
Qed.
End ConnectFacts.

Section StatusFacts.
Import SimpleWebSocket.
Context (env : Env).

Ltac crush :=
  repeat first
    [ progress (cbn in *; simplify_eq)
    | case_match
    | split ].

Lemma new_consistent (o : Options.t) (w : World t) :
  (new env o).2 = w → consistent w.
Proof.
  intros <-. unfold consistent, last_event_is_open, new, constructor, connect,
    new_WebSocket, update_socket, onError. run.
  crush.
Qed.

Lemma step_consistent (a : Action) (w : World t) :
  consistent w → consistent (step env a w).
Proof.
  unfold consistent. intros H.
  destruct a; unfold step, send, report, socket_send, disconnect, getStatus,
    socket_open, socket_message, socket_close, update_socket, run_handler,
    onConnect, onError, onMessage, onClose, update_socket; run;
    destruct (webSocket (this w)) as [s|] eqn:Hs;
    try destruct H as (Hopen & Hclose & Hready);
    unfold last_event_is_open in *;
    repeat first [progress crush | progress rewrite Hs in *]; done.
Qed.

Lemma run_actions_consistent (l : list Action) (w : World t) :
  consistent w → consistent (run_actions env l w).
Proof.
  revert w. induction l as [|a l IH]; intros w Hw; cbn; [done |].
  apply IH, step_consistent, Hw.
Qed.

Lemma consistent_connected (w : World t) :
  consistent w →
  ∃ st, getStatus w = (Returned st, w)
        ∧ connected st = JBool (last_event_is_open (log w)).
Proof.
  unfold consistent, getStatus, last_event_is_open. run. intros H.
  destruct (webSocket (this w)) as [s|].
  - destruct H as (_ & _ & ->). by eexists.
  - rewrite H. by eexists.
Qed.

Lemma new_open_was_seen (o : Options.t) (w : World t) :
  (new env o).2 = w → open_was_seen w.
Proof.
  intros <-. unfold open_was_seen, last_event_is_open, new, constructor, connect,
    new_WebSocket, update_socket, onError. run.
  crush; done.
Qed.

Lemma browser_step_open_was_seen (a : BrowserAction) (w : World t) :
  open_was_seen w → open_was_seen (browser_step env a w).
Proof.
  unfold open_was_seen. intros H.
  destruct a; unfold browser_step, BrowserWebSocket.disconnect,
    BrowserWebSocket.close, BrowserWebSocket.opened, BrowserWebSocket.closed,
    send, report, socket_send, getStatus, socket_open, socket_message,
    update_socket, run_handler, onConnect, onError, onMessage, onClose,
    update_socket; run;
    destruct (webSocket (this w)) as [s|] eqn:Hs;
    try destruct H as (Hopen & Hready);
    unfold last_event_is_open in *;
    repeat first [progress crush | progress rewrite Hs in *];
    first [done | by auto | intros; congruence].
Qed.

Lemma browser_run_open_was_seen (l : list BrowserAction) (w : World t) :
  open_was_seen w → open_was_seen (browser_run env l w).
Proof.
  revert w. induction l as [|a l IH]; intros w Hw; cbn; [done |].
  apply IH, browser_step_open_was_seen, Hw.
Qed.

Lemma open_was_seen_connected (w : World t) :
  open_was_seen w →
  ∃ st, getStatus w = (Returned st, w)
        ∧ (connected st = JBool true → last_event_is_open (log w) = true).
Proof.
  unfold open_was_seen, getStatus, connected. run. intros H.
  destruct (webSocket (this w)) as [s|]; eexists; (split; [reflexivity |]); cbn.
  - destruct H as [_ H]. intros [= E]. by apply H.
  - discriminate.
Qed.

(** C6 (as amended).  [getStatus()] returns its snapshot and leaves the
    world, the client's fields and the log alike, exactly as it found it;
    the snapshot's [connected] flag is a boolean that is true exactly
    when there is a socket whose [readyState] is 1.  With the test-suite's
    socket, whose [close()] fires the close event at once, the flag after
    any run on a constructed client says whether the most recent open or
    close event was an open.  With a browser's socket it is true only if
    that event was an open. *)
Theorem getStatus_pure_read (o : Options.t) (l : list Action)
    (bl : list BrowserAction) (w0 : World t) :
  (∀ w, ∃ st,
      getStatus w = (Returned st, w)
      ∧ (connected st = JBool true
         ↔ ∃ s, webSocket (this w) = Some s ∧ MockWebSocket.readyState s = 1)
      ∧ (connected st = JBool true ∨ connected st = JBool false))
  ∧ (new env o = (Returned (), w0) →
     (∃ st,
        getStatus (run_actions env l w0) = (Returned st, run_actions env l w0)
        ∧ connected st = JBool (last_event_is_open (log (run_actions env l w0))))
     ∧ ∃ st,
         getStatus (browser_run env bl w0) = (Returned st, browser_run env bl w0)
         ∧ (connected st = JBool true →
            last_event_is_open (log (browser_run env bl w0)) = true)).
Proof.
  split.
  - intros w. unfold getStatus. run.
    destruct (webSocket (this w)) as [s|]; eexists; (split; [reflexivity |]);
      unfold connected; cbn.
    + destruct (Z.eqb_spec (MockWebSocket.readyState s) 1) as [E|E].
      * split; [| by left]. split; [by exists s | done].
      * split; [| by right]. split; [done |]. intros (s' & [= <-] & E'). done.
    + split; [| by right]. split; [done |]. by intros (s' & [=] & _).
  - intros Hnew. split.
    + apply consistent_connected, run_actions_consistent, (new_consistent o).
      by rewrite Hnew.
    + apply open_was_seen_connected, browser_run_open_was_seen,
        (new_open_was_seen o).
      by rewrite Hnew.
Qed.
End StatusFacts.

(** * The event client *)

Section EventClientFacts.
Import WebSocketClient.
Context (JSON_parse : string → option JsValue).

Lemma calls_of_app (id : nat) (l1 l2 : list Effect) :
  calls_of id (l1 ++ l2) = (calls_of id l1 + calls_of id l2)%nat.
Proof. induction l1 as [|e l1 IH]; cbn; [done |]. rewrite IH. lia. Qed.

(** One pass over a list of callbacks never throws, leaves the client
    alone, parses nothing and calls each callback once per registration. *)
Lemma invoke_all_spec (l : list Callback) (payload : JsValue) (w : World t) :
  ∃ new,
    invoke_all l payload w = (Returned (), mkWorld (this w) (new ++ log w))
    ∧ Forall (λ e, is_json_parse e = false) new
    ∧ ∀ id, calls_of id new = registrations id l.
Proof.
  revert w. induction l as [|f l IH]; intros w.
  - exists []. by destruct w.
  - cbn [invoke_all]. unfold debug_log. run.
    destruct (cb_run f [payload]) as [e|]; cbn -[invoke_all app];
      [destruct (debug (this w)); cbn -[invoke_all app] |].
    all: match goal with
         | |- context [invoke_all _ _ ?w1] =>
             destruct (IH w1) as (new & -> & Hparse & Hcalls)
         end.
    all: cbn [this log].
    + exists (new ++ [EConsole "log" [JStr "Error in event callback:"; e];
                      ECall (cb_id f) [payload]]).
      rewrite <- app_assoc. split; [done |]. split.
      * apply Forall_app. split; [done | by repeat constructor].
      * intros id. rewrite calls_of_app, Hcalls. cbn. lia.
    + exists (new ++ [ECall (cb_id f) [payload]]).
      rewrite <- app_assoc. split; [done |]. split.
      * apply Forall_app. split; [done | by repeat constructor].
      * intros id. rewrite calls_of_app, Hcalls. cbn. lia.
    + exists (new ++ [ECall (cb_id f) [payload]]).
      rewrite <- app_assoc. split; [done |]. split.
      * apply Forall_app. split; [done | by repeat constructor].
      * intros id. rewrite calls_of_app, Hcalls. cbn. lia.
Qed.

(** A dispatch calls a callback once for each of its registrations under
    the name and once for each under the wildcard. *)
Lemma dispatch_spec (eventName : string) (payload : JsValue) (w : World t) :
  ∃ new,
    dispatch eventName payload w = (Returned (), mkWorld (this w) (new ++ log w))
    ∧ Forall (λ e, is_json_parse e = false) new
    ∧ ∀ id, calls_of id new
            = (registrations id (registered (this w) eventName)
               + registrations id (registered (this w) wildcard))%nat.
Proof.
  unfold dispatch. run.
  destruct (invoke_all_spec (registered (this w) eventName) payload w)
    as (n1 & -> & Hp1 & Hc1).
  destruct (invoke_all_spec (registered (this w) wildcard) payload
              (mkWorld (this w) (n1 ++ log w))) as (n2 & -> & Hp2 & Hc2).
  cbn [this log]. exists (n2 ++ n1). rewrite <- app_assoc.
  split; [done |]. split.
  - apply Forall_app. by split.
  - intros id. rewrite calls_of_app, Hc1, Hc2. lia.
Qed.




(** C7.  [ping()] hands the transport the literal text 'Ping' and does
    nothing else; a frame that is 'Pong' or empty is classified as the
    pong sentinel and dispatched under the name 'Pong' with the frame
    itself as payload, and handling it never calls [JSON.parse]. *)
Theorem ping_pong_sentinels (raw : string) (w : World t) :
  ping w = (Returned (), mkWorld (this w) (ESocketSend (JStr "Ping") :: log w))
  ∧ (raw = "Pong" ∨ raw = "" →
     classify JSON_parse raw w = (Returned (Pong raw), w)
     ∧ receive JSON_parse raw w = dispatch "Pong" (JStr raw) w
     ∧ ∃ new,
         receive JSON_parse raw w = (Returned (), mkWorld (this w) (new ++ log w))
         ∧ Forall (λ e, is_json_parse e = false) new).
Proof.
  split; [reflexivity |]. intros Hraw.
  assert (Hc : classify JSON_parse raw w = (Returned (Pong raw), w)).
  { unfold classify. by destruct Hraw as [-> | ->]. }
  assert (Hr : receive JSON_parse raw w = dispatch "Pong" (JStr raw) w).
  { unfold receive, mbind, M_bind, bind. by rewrite Hc. }
  split; [exact Hc |]. split; [exact Hr |].
  rewrite Hr.
  destruct (dispatch_spec "Pong" (JStr raw) w) as (new & Hd & Hparse & _).
  by exists new.
Qed.

End EventClientFacts.

(** * The theorems at concrete inputs *)

Lemma new_requires_url_witness :
  Options.url Options.empty = None
  ∧ truthy_str (Options.url Options.empty) = false
  ∧ "wss://test.com" ≠ ""
  ∧ SimpleWebSocket.new Jsdom.env Options.empty
    = (Thrown (JError "Error" "url is required in the options."),
       mkWorld SimpleWebSocket.blank [])
  ∧ ∃ w, SimpleWebSocket.new Jsdom.env (Options.only_url "wss://test.com")
         = (Returned (), w)
         ∧ SimpleWebSocket.url (this w) = Some "wss://test.com"
         ∧ SimpleWebSocket.appId (this w) = None
         ∧ SimpleWebSocket.appSecret (this w) = None
         ∧ SimpleWebSocket.accessToken (this w) = Some "".
Proof.
  split; [reflexivity |]. split; [reflexivity |]. split; [discriminate |].
  destruct (new_requires_url Jsdom.env Options.empty "wss://test.com")
    as [Hthrows Hreturns].
  split.
  - apply Hthrows. reflexivity.
  - apply Hreturns; [discriminate |]. intros _. by eexists.
Defined.

(** With only a url the access token is the empty string, not undefined. *)
Lemma only_url_accessToken_not_undefined :
  ¬ ∃ w, SimpleWebSocket.new Jsdom.env (Options.only_url "wss://test.com")
         = (Returned (), w)
         ∧ SimpleWebSocket.appId (this w) = None
         ∧ SimpleWebSocket.appSecret (this w) = None
         ∧ SimpleWebSocket.accessToken (this w) = None.
Proof.
  intros (w & Hnew & _ & _ & Htoken).
  vm_compute in Hnew. injection Hnew as <-. discriminate Htoken.
Qed.

Lemma send_not_open_witness :
  let s := MockWebSocket.mk "wss://test.com/" 0 "arraybuffer" (Some HOnConnect)
             (Some HOnError) (Some HOnMessage) (Some HOnClose) in
  let error :=
    JObject [("message", JStr "WebSocket Connection not open. Couldn't send data.");
             ("readyState", JNum 0)] in
  truthy (JStr "test") = true
  ∧ SimpleWebSocket.webSocket (this Jsdom.connecting) = Some s
  ∧ MockWebSocket.readyState s ≠ 1
  ∧ SimpleWebSocket.send Jsdom.env (JStr "test") (Some (Jsdom.quiet 1)) Jsdom.connecting
    = (Returned (),
       mkWorld (this Jsdom.connecting) (ECall 1 [error] :: log Jsdom.connecting)).
Proof.
  cbn zeta.
  split; [reflexivity |]. split; [reflexivity |]. split; [discriminate |].
  destruct (send_not_open Jsdom.env (JStr "test") (Jsdom.quiet 1) Jsdom.connecting _
              eq_refl eq_refl ltac:(discriminate))
    as (_ & r & w' & new & Hsend & Hthis & Hlog & _ & Hquiet).
  destruct (Hquiet eq_refl) as [-> ->]. destruct w' as [c l].
  cbn in Hthis, Hlog. rewrite Hsend, Hthis, Hlog. reflexivity.
Defined.

(** A callback that throws makes [send] throw on a socket not yet open. *)
Lemma send_not_open_callback_throws :
  truthy (JStr "test") = true
  ∧ (MockWebSocket.readyState <$> SimpleWebSocket.webSocket (this Jsdom.connecting))
    = Some 0
  ∧ (SimpleWebSocket.send Jsdom.env (JStr "test") (Some (Jsdom.failing 1))
       Jsdom.connecting).1
    = Thrown (JError "Error" "boom").
Proof. repeat split. Qed.

Lemma send_total_witness :
  let data := JStr "Hello World" in
  let cb := Some (Jsdom.quiet 1) in
  never_throws cb
  ∧ ∃ new,
      SimpleWebSocket.send Jsdom.env data cb Jsdom.opened
      = (Returned (), mkWorld (this Jsdom.opened) (new ++ log Jsdom.opened))
      ∧ ((∃ error m e,
            get_field error "message" = JStr m
            ∧ has_field error "message" = true
            ∧ reported_error cb error e
            ∧ (new = [e] ∨ new = [e; ESocketSend data]))
         ∨ new = reported_success cb ++ [ESocketSend data]).
Proof.
  cbn zeta.
  assert (Hq : never_throws (Some (Jsdom.quiet 1))).
  { intros f [= <-] args. reflexivity. }
  split; [exact Hq |].
  exact (send_total Jsdom.env (JStr "Hello World") (Some (Jsdom.quiet 1))
           Jsdom.opened Hq).
Defined.

(** On an open socket a callback that throws on success is called a second
    time, with an error, and [send] throws. *)
Lemma send_open_callback_throws :
  SimpleWebSocket.send Jsdom.env (JStr "Hello World") (Some (Jsdom.failing 1)) Jsdom.opened
  = (Thrown (JError "Error" "boom"),
     mkWorld (this Jsdom.opened)
       (ECall 1 [JObject [("message", JStr "Error while sending the data.");
                          ("originalError", JError "Error" "boom")]]
        :: ECall 1 [JNull; JObject [("success", JBool true)]]
        :: ESocketSend (JStr "Hello World") :: log Jsdom.opened)).
Proof. reflexivity. Qed.

Lemma send_falsy_witness :
  let error := JObject [("message", JStr "undefined data detected.")] in
  Forall (λ data,
            truthy data = false
            ∧ SimpleWebSocket.send Jsdom.env data (Some (Jsdom.quiet 1)) Jsdom.opened
              = (Returned (),
                 mkWorld (this Jsdom.opened) (ECall 1 [error] :: log Jsdom.opened)))
         [JUndefined; JNull; JStr ""; JNum 0; JBool false].
Proof.
  cbn zeta.
  repeat match goal with
         | |- Forall _ (?data :: _) =>
             constructor;
             [split; [reflexivity |];
              exact (proj1 (send_falsy Jsdom.env data (Jsdom.quiet 1) Jsdom.opened
                              eq_refl)) |]
         end.
  constructor.
Defined.

Lemma no_socket_send_and_status_witness :
  let error := JObject [("message", JStr "WebSocket not initialized.")] in
  SimpleWebSocket.webSocket (this Jsdom.unsupported) = None
  ∧ truthy (JStr "test") = true
  ∧ SimpleWebSocket.send Jsdom.bare (JStr "test") (Some (Jsdom.quiet 1)) Jsdom.unsupported
    = (Returned (),
       mkWorld (this Jsdom.unsupported) (ECall 1 [error] :: log Jsdom.unsupported))
  ∧ SimpleWebSocket.getStatus Jsdom.unsupported
    = (Returned (JObject [("connected", JBool false);
                          ("readyState", JStr "NOT_INITIALIZED");
                          ("url", JStr "wss://test.com")]),
       Jsdom.unsupported).
Proof.
  cbn zeta.
  destruct (no_socket_send_and_status Jsdom.bare (JStr "test") (Jsdom.quiet 1)
              Jsdom.unsupported eq_refl) as (Hsend & _ & _ & Hstatus).
  split; [reflexivity |]. split; [reflexivity |].
  split; [exact (Hsend eq_refl) | exact Hstatus].
Defined.

Lemma connect_injects_auth_witness :
  Options.url Jsdom.all_options = Some "wss://test.com"
  ∧ has_WebSocket Jsdom.env = true
  ∧ URL_parse Jsdom.env "wss://test.com" = Some (URL.mk "wss://test.com/" [] "")
  ∧ ∃ r w,
      SimpleWebSocket.new Jsdom.env Jsdom.all_options = (r, w)
      ∧ handed_urls (log w)
        = ["wss://test.com/?appId=test-app&appSecret=test-secret&token=test-token"]
      ∧ SimpleWebSocket.url (this w) = Some "wss://test.com".
Proof.
  split; [reflexivity |]. split; [reflexivity |]. split; [reflexivity |].
  destruct (connect_injects_auth Jsdom.env Jsdom.all_options "wss://test.com"
              (URL.mk "wss://test.com/" [] "")) as [Hhanded _].
  destruct (Hhanded eq_refl ltac:(discriminate) eq_refl eq_refl)
    as (r & w & Hnew & Hurls & Hurl & _).
  exists r, w. split; [exact Hnew |]. split; [exact Hurls | exact Hurl].
Defined.

(** An [appId] supplied as the empty string is not put into the query. *)
Lemma empty_appId_not_injected :
  Options.appId Jsdom.empty_appId = Some ""
  ∧ handed_urls (log (SimpleWebSocket.new Jsdom.env Jsdom.empty_appId).2)
    = ["wss://test.com/?appSecret=test-secret&token=test-token"]
  ∧ handed_urls (log (SimpleWebSocket.new Jsdom.env Jsdom.empty_appId).2)
    ≠ [URL.toString (URL_encode Jsdom.env)
         (URL.mk "wss://test.com/"
            [("appId", ""); ("appSecret", "test-secret"); ("token", "test-token")]
            "")].
Proof. repeat split. discriminate. Qed.

Lemma getStatus_pure_read_witness :
  SimpleWebSocket.new Jsdom.env (Options.only_url "wss://test.com")
  = (Returned (), Jsdom.connecting)
  ∧ (∃ st, SimpleWebSocket.getStatus (run_actions Jsdom.env [TOpen] Jsdom.connecting)
           = (Returned st, run_actions Jsdom.env [TOpen] Jsdom.connecting)
           ∧ connected st = JBool true)
  ∧ (∃ st, SimpleWebSocket.getStatus
             (run_actions Jsdom.env [TOpen; ADisconnect] Jsdom.connecting)
           = (Returned st, run_actions Jsdom.env [TOpen; ADisconnect] Jsdom.connecting)
           ∧ connected st = JBool false)
  ∧ (∃ st, SimpleWebSocket.getStatus (browser_run Jsdom.env [BOpened] Jsdom.connecting)
           = (Returned st, browser_run Jsdom.env [BOpened] Jsdom.connecting)
           ∧ connected st = JBool true
           ∧ last_event_is_open (log (browser_run Jsdom.env [BOpened] Jsdom.connecting))
             = true).
Proof.
  split; [reflexivity |]. split; [| split].
  - destruct (getStatus_pure_read Jsdom.env (Options.only_url "wss://test.com")
                [TOpen] [] Jsdom.connecting) as [_ Hrun].
    destruct (Hrun eq_refl) as [(st & Hst & Hc) _].
    exists st. split; [exact Hst | exact Hc].
  - destruct (getStatus_pure_read Jsdom.env (Options.only_url "wss://test.com")
                [TOpen; ADisconnect] [] Jsdom.connecting) as [_ Hrun].
    destruct (Hrun eq_refl) as [(st & Hst & Hc) _].
    exists st. split; [exact Hst | exact Hc].
  - destruct (getStatus_pure_read Jsdom.env (Options.only_url "wss://test.com")
                [] [BOpened] Jsdom.connecting) as [_ Hrun].
    destruct (Hrun eq_refl) as [_ (st & Hst & Hc)].
    exists st. split; [exact Hst |].
    assert (Hflag : connected st = JBool true).
    { revert Hst. vm_compute. by intros [= <-]. }
    split; [exact Hflag | exact (Hc Hflag)].
Defined.

(** With a browser's socket the flag is false while the socket is
    closing, although the last open or close event seen was an open. *)
Lemma closing_socket_not_connected :
  let w := browser_run Jsdom.env [BOpened; BDisconnect] Jsdom.connecting in
  last_event_is_open (log w) = true
  ∧ (MockWebSocket.readyState <$> SimpleWebSocket.webSocket (this w)) = Some 2
  ∧ ∃ st, SimpleWebSocket.getStatus w = (Returned st, w)
          ∧ connected st = JBool false.
Proof.
  cbn zeta. split; [reflexivity |]. split; [reflexivity |].
  eexists. split; [reflexivity |]. reflexivity.
Qed.

Lemma ping_pong_sentinels_witness :
  ("Pong" = "Pong" ∨ "Pong" = "")
  ∧ WebSocketClient.ping Jsdom.client
    = (Returned (), mkWorld (this Jsdom.client) [ESocketSend (JStr "Ping")])
  ∧ WebSocketClient.receive (λ _, None) "Pong"
      (WebSocketClient.on "Pong" (Jsdom.quiet 3) Jsdom.client).2
    = (Returned (),
       mkWorld (this (WebSocketClient.on "Pong" (Jsdom.quiet 3) Jsdom.client).2)
               [ECall 3 [JStr "Pong"]]).
Proof.
  split; [by left |].
  destruct (ping_pong_sentinels (λ _, None) "Pong" Jsdom.client) as [Hping _].
  split; [exact Hping |].
  destruct (ping_pong_sentinels (λ _, None) "Pong"
              (WebSocketClient.on "Pong" (Jsdom.quiet 3) Jsdom.client).2)
    as [_ Hpong].
  destruct (Hpong (or_introl eq_refl)) as (_ & -> & _).
  vm_compute. reflexivity.
Defined.




(** * More about SimpleWebSocket *)

Section SendAndDisconnect.
Import SimpleWebSocket.
Context (env : Env).

Ltac branches :=
  repeat first
    [ progress (cbn in *; simplify_eq)
    | case_match ].

(** X2.  The transport's [send] is called exactly when the payload is
    truthy and the socket is there with [readyState] 1, then exactly once
    and with the payload itself; in every other case it is not called. *)
Theorem send_reaches_transport (data : JsValue) (cb : option Callback) (w : World t) :
  ∃ new,
    log (send env data cb w).2 = new ++ log w
    ∧ sent_payloads new = if truthy data && is_open (this w) then [data] else [].
Proof.
  unfold send, report, socket_send, is_open. run.
  destruct (truthy data); cbn [negb andb]; [destruct (webSocket (this w)) as [s|] |].
  - destruct (MockWebSocket.readyState s =? 1);
      [destruct (WebSocket_send env data) |];
      destruct cb as [f|]; cbn;
      repeat match goal with |- context [cb_run ?f ?a] => destruct (cb_run f a) end;
      cbn;
      first [by eexists [] | by eexists [_] | by eexists [_; _] | by eexists [_; _; _]].
  - destruct cb as [f|]; cbn; [destruct (cb_run f _) |]; cbn; by eexists [_].
  - destruct cb as [f|]; cbn; [destruct (cb_run f _) |]; cbn; by eexists [_].
Qed.

(** X3.  On an open socket whose transport takes the payload, [send]
    first hands the payload over and then reports
    [cb(null, { success: true })]; without a callback it reports nothing. *)
Theorem send_open_success (data : JsValue) (f : Callback) (w : World t) :
  truthy data = true →
  is_open (this w) = true →
  WebSocket_send env data = None →
  let result := [JNull; JObject [("success", JBool true)]] in
  send env data None w = (Returned (), mkWorld (this w) (ESocketSend data :: log w))
  ∧ (cb_run f result = None →
     send env data (Some f) w
     = (Returned (),
        mkWorld (this w) (ECall (cb_id f) result :: ESocketSend data :: log w))).
Proof.
  unfold is_open. intros Hd Hopen Hsend. cbn zeta.
  destruct (webSocket (this w)) as [s|] eqn:Hs; [| discriminate].
  unfold send, socket_send. rewrite Hd. cbn [negb]. run.
  rewrite Hs, Hopen, Hsend. cbn. split; [reflexivity |]. by intros ->.
Qed.

(** X4.  When the transport's [send] throws, the exception does not leave
    [send]: it is handed to the callback as [originalError] of an error
    whose message is 'Error while sending the data.', or logged when there
    is no callback, and no success is reported. *)
Theorem send_transport_exception (data e : JsValue) (f : Callback) (w : World t) :
  truthy data = true →
  is_open (this w) = true →
  WebSocket_send env data = Some e →
  let error := JObject [("message", JStr "Error while sending the data.");
                        ("originalError", e)] in
  send env data None w
  = (Returned (),
     mkWorld (this w)
       (EConsole "error" [JStr "Error while sending the data:"; e]
        :: ESocketSend data :: log w))
  ∧ send env data (Some f) w
    = (outcome_of (cb_run f [error]),
       mkWorld (this w) (ECall (cb_id f) [error] :: ESocketSend data :: log w)).
Proof.
  unfold is_open. intros Hd Hopen Hsend. cbn zeta.
  destruct (webSocket (this w)) as [s|] eqn:Hs; [| discriminate].
  unfold send, socket_send, report. rewrite Hd. cbn [negb]. run.
  rewrite Hs, Hopen, Hsend. cbn. split; [reflexivity |].
  by destruct (cb_run f _).
Qed.

(** X5.  [disconnect()] does nothing at all without a socket.  With one
    it calls the socket's [close] once, which leaves [readyState] 3, and
    the close handler tells the application once: through
    [options.onClose()], called without arguments, or else on the console. *)
Theorem disconnect_closes (w : World t) :
  (webSocket (this w) = None → disconnect w = (Returned (), w))
  ∧ ∀ s, webSocket (this w) = Some s →
         MockWebSocket.onclose s = Some HOnClose →
         let onClose := Options.onClose (options (this w)) in
         disconnect w
         = (notify_outcome onClose [],
            mkWorld (set_webSocket (MockWebSocket.set_readyState 3 s) (this w))
              (notified onClose [] "info" [JStr "WebSocket Connection Closed."]
               :: ETransportEvent "close" :: ESocketClose :: log w)).
Proof.
  unfold disconnect, socket_close, update_socket, run_handler, onClose. run. split.
  - intros ->. by destruct w.
  - intros s Hs Hclose. destruct s as [u r b o1 o2 o3 o4].
    cbn in Hclose. subst o4. repeat (rewrite Hs; cbn).
    destruct (Options.onClose (options (this w))) as [f|]; cbn; [| done].
    by destruct (cb_run f []).
Qed.

(** X6.  After [disconnect()] the client is closed for good as far as
    [send] and [getStatus] go: the status shows [connected: false] and
    [readyState: 3], and a truthy payload is answered with the error
    "WebSocket Connection not open. Couldn't send data." carrying
    [readyState: 3], the transport not being called. *)
Theorem send_after_disconnect (data : JsValue) (f : Callback) (w : World t)
    (s : MockWebSocket.t) :
  webSocket (this w) = Some s →
  truthy data = true →
  let w1 := (disconnect w).2 in
  let error :=
    JObject [("message", JStr "WebSocket Connection not open. Couldn't send data.");
             ("readyState", JNum 3)] in
  (∃ st, getStatus w1 = (Returned st, w1)
         ∧ connected st = JBool false
         ∧ get_field st "readyState" = JNum 3)
  ∧ (cb_run f [error] = None →
     send env data (Some f) w1
     = (Returned (), mkWorld (this w1) (ECall (cb_id f) [error] :: log w1))).
Proof.
  intros Hs Hd. cbn zeta.
  assert (Hw1 : ∃ s1, webSocket (this (disconnect w).2) = Some s1
                      ∧ MockWebSocket.readyState s1 = 3).
  { unfold disconnect, socket_close, update_socket, run_handler, onClose, onError,
      onMessage, onConnect, update_socket. run.
    repeat first [progress branches | progress rewrite Hs in *]; by eexists. }
  destruct Hw1 as (s1 & Hw1 & Hready). split.
  - unfold getStatus, connected. run. rewrite Hw1, Hready. eexists. by split.
  - intros Hquiet. unfold send, report. rewrite Hd. cbn [negb]. run.
    rewrite Hw1, Hready. cbn. by rewrite Hquiet.
Qed.
End SendAndDisconnect.

Section ConstructorPaths.
Import SimpleWebSocket.
Context (env : Env).

Ltac construct :=
  unfold new, constructor, connect, new_WebSocket, update_socket, onError; run.

(** X7.  Whenever the url passes the constructor's check, the instance
    holds the options' [url], [appId] and [appSecret] as given, the
    [accessToken] as given or else the empty string, and the options
    object itself, on every path through [connect], the ones that throw
    included; [webSocketConnection] is not yet defined. *)
Theorem new_stores_options (o : Options.t) :
  truthy_str (Options.url o) = true →
  config (this (new env o).2)
  = (Options.url o, js_or (Options.accessToken o) (Some ""), Options.appId o,
     Options.appSecret o, o)
  ∧ webSocketConnection (this (new env o).2) = None.
Proof.
  intros Hu. construct. rewrite Hu. cbn [negb].
  destruct (has_WebSocket env); cbn.
  - destruct (URL_parse env _); cbn; [| done].
    destruct (WebSocket_new env _); cbn; [| done].
    by destruct (Options.onError o) as [f|]; cbn; [destruct (cb_run f _) |].
  - by destruct (Options.onError o) as [f|]; cbn; [destruct (cb_run f _) |].
Qed.

(** X8.  Where there is no WebSocket the constructor neither parses the
    url nor creates a socket: all it does is report the error 'WebSocket
    is not supported in this environment' once, to [options.onError] or
    else on the console, and it throws only what that callback throws. *)
Theorem new_unsupported (o : Options.t) :
  truthy_str (Options.url o) = true →
  has_WebSocket env = false →
  let error := JError "Error" "WebSocket is not supported in this environment" in
  (new env o).1 = notify_outcome (Options.onError o) [error]
  ∧ log (new env o).2
    = [notified (Options.onError o) [error] "error" [JStr "WebSocket Error:"; error]]
  ∧ webSocket (this (new env o).2) = None.
Proof.
  intros Hu Hws. cbn zeta. construct. rewrite Hu, Hws. cbn.
  by destruct (Options.onError o) as [f|]; cbn; [destruct (cb_run f _) |].
Qed.

(** X9.  A url that [URL] rejects makes the constructor itself throw:
    the parse comes before the [try], so nothing is logged, no socket is
    created and [options.onError] is not called. *)
Theorem new_invalid_url (o : Options.t) (u : string) :
  Options.url o = Some u →
  u ≠ "" →
  has_WebSocket env = true →
  URL_parse env u = None →
  (∃ e, (new env o).1 = Thrown e)
  ∧ log (new env o).2 = []
  ∧ webSocket (this (new env o).2) = None.
Proof.
  intros Ho Hu Hws Hp. construct.
  rewrite Ho, (truthy_str_Some u Hu), Hws. cbn. rewrite Hp. cbn.
  split; [by eexists | done].
Qed.

(** X10.  When [new window.WebSocket(...)] throws, the constructor
    catches the exception, logs it and passes that same exception to the
    error handler, once; the client is left without a socket, and the
    constructor throws only what [options.onError] throws. *)
Theorem new_socket_failure (o : Options.t) (u : string) (p : URL.t) (e : JsValue) :
  let href :=
    URL.toString (URL_encode env)
      (URL.mk (URL.base p) (URL.searchParams p ++ auth_params o) (URL.hash p)) in
  Options.url o = Some u →
  u ≠ "" →
  has_WebSocket env = true →
  URL_parse env u = Some p →
  WebSocket_new env href = Some e →
  (new env o).1 = notify_outcome (Options.onError o) [e]
  ∧ log (new env o).2
    = [notified (Options.onError o) [e] "error" [JStr "WebSocket Error:"; e];
       EConsole "error" [JStr "Failed to create WebSocket connection:"; e];
       ESocketNew href;
       EConsole "log" [JStr "Connecting to WebSocket:"; JStr href]]
  ∧ webSocket (this (new env o).2) = None.
Proof.
  cbn zeta. intros Ho Hu Hws Hp. construct.
  rewrite Ho, (truthy_str_Some u Hu), Hws. cbn. rewrite Hp. cbn.
  rewrite !append_auth_param. cbn [URL.base URL.searchParams URL.hash].
  rewrite auth_param_js_or_default, <- !app_assoc. fold (auth_params o).
  intros ->. cbn.
  by destruct (Options.onError o) as [f|]; cbn; [destruct (cb_run f _) |].
Qed.

(** X11.  When the socket is created the constructor returns with the
    socket still connecting ([readyState] 0), its [binaryType] set to
    'arraybuffer' and its four handlers bound to the client's methods;
    apart from the connecting line on the console nothing is logged and
    no callback of the application has run yet. *)
Theorem new_wires_socket (o : Options.t) (u : string) (p : URL.t) :
  let href :=
    URL.toString (URL_encode env)
      (URL.mk (URL.base p) (URL.searchParams p ++ auth_params o) (URL.hash p)) in
  Options.url o = Some u →
  u ≠ "" →
  has_WebSocket env = true →
  URL_parse env u = Some p →
  WebSocket_new env href = None →
  (new env o).1 = Returned ()
  ∧ webSocket (this (new env o).2)
    = Some (MockWebSocket.mk href 0 "arraybuffer" (Some HOnConnect) (Some HOnError)
              (Some HOnMessage) (Some HOnClose))
  ∧ log (new env o).2
    = [ESocketNew href; EConsole "log" [JStr "Connecting to WebSocket:"; JStr href]].
Proof.
  cbn zeta. intros Ho Hu Hws Hp. construct.
  rewrite Ho, (truthy_str_Some u Hu), Hws. cbn. rewrite Hp. cbn.
  rewrite !append_auth_param. cbn [URL.base URL.searchParams URL.hash].
  rewrite auth_param_js_or_default, <- !app_assoc. fold (auth_params o).
  by intros ->.
Qed.
End ConstructorPaths.

Section LifeOfAClient.
Import SimpleWebSocket.
Context (env : Env).

Ltac every_step a w :=
  destruct a; unfold step, send, report, socket_send, disconnect, getStatus,
    socket_open, socket_message, socket_close, update_socket, run_handler,
    onConnect, onError, onMessage, onClose, update_socket; run;
  destruct (webSocket (this w)) as [s0|] eqn:Hs0.

Ltac settle H :=
  repeat first
    [ progress (cbn in *; simplify_eq)
    | case_match
    | progress rewrite H in * ].

Lemma step_keeps_config (a : Action) (w : World t) :
  config (this (step env a w)) = config (this w).
Proof. unfold config. every_step a w; settle Hs0; done. Qed.

(** X12.  No method call and no transport event ever changes what the
    constructor copied from the options: [url], [accessToken], [appId],
    [appSecret] and the options object stay the same over any run. *)
Theorem config_never_changes (l : list Action) (w : World t) :
  config (this (run_actions env l w)) = config (this w).
Proof.
  revert w. induction l as [|a l IH]; intros w; [done |].
  change (run_actions env (a :: l) w) with (run_actions env l (step env a w)).
  by rewrite IH, step_keeps_config.
Qed.

Lemma step_keeps_socket (a : Action) (w : World t) :
  handed_urls (log (step env a w)) = handed_urls (log w)
  ∧ (webSocket (this (step env a w)) = None ↔ webSocket (this w) = None).
Proof.
  every_step a w; settle Hs0;
    first [by split | split; [done | split; congruence]].
Qed.

(** X13.  The client never opens a second socket: over any run of method
    calls and transport events no URL is handed to [new WebSocket] again,
    a client that has a socket keeps having one, and a client left
    without a socket by its constructor never gets one. *)
Theorem never_reconnects (l : list Action) (w : World t) :
  handed_urls (log (run_actions env l w)) = handed_urls (log w)
  ∧ (webSocket (this (run_actions env l w)) = None ↔ webSocket (this w) = None).
Proof.
  revert w. induction l as [|a l IH]; intros w; [done |].
  change (run_actions env (a :: l) w) with (run_actions env l (step env a w)).
  destruct (IH (step env a w)) as [-> ->]. apply step_keeps_socket.
Qed.

Lemma step_keeps_wiring (a : Action) (w : World t) (s : MockWebSocket.t) :
  webSocket (this w) = Some s →
  wired s →
  ∃ s', webSocket (this (step env a w)) = Some s'
        ∧ wired s'
        ∧ MockWebSocket.url s' = MockWebSocket.url s
        ∧ MockWebSocket.binaryType s' = MockWebSocket.binaryType s
        ∧ (MockWebSocket.readyState s' = MockWebSocket.readyState s
           ∨ MockWebSocket.readyState s' = 1
           ∨ MockWebSocket.readyState s' = 3).
Proof.
  unfold wired. intros Hs (Hopen & Herror & Hmessage & Hclose).
  destruct s as [u r b o1 o2 o3 o4]. cbn in *. subst.
  every_step a w; settle Hs0;
    eexists; (split; [first [reflexivity | eassumption] |]); cbn; auto 10.
Qed.

(** X14.  Once wired, always wired: from a client whose socket carries
    the four handlers, any run leaves a socket with the same four
    handlers, the same url and binary type, and a [readyState] that is
    the original one, 1 or 3. *)
Theorem wiring_survives (l : list Action) (w : World t) (s : MockWebSocket.t) :
  webSocket (this w) = Some s →
  wired s →
  ∃ s', webSocket (this (run_actions env l w)) = Some s'
        ∧ wired s'
        ∧ MockWebSocket.url s' = MockWebSocket.url s
        ∧ MockWebSocket.binaryType s' = MockWebSocket.binaryType s
        ∧ (MockWebSocket.readyState s' = MockWebSocket.readyState s
           ∨ MockWebSocket.readyState s' = 1
           ∨ MockWebSocket.readyState s' = 3).
Proof.
  revert w s. induction l as [|a l IH]; intros w s Hs Hw.
  - exists s. cbn. auto 10.
  - change (run_actions env (a :: l) w) with (run_actions env l (step env a w)).
    destruct (step_keeps_wiring a w s Hs Hw) as (s1 & Hs1 & Hw1 & Hu1 & Hb1 & Hr1).
    destruct (IH _ s1 Hs1 Hw1) as (s2 & Hs2 & Hw2 & Hu2 & Hb2 & Hr2).
    exists s2. split; [exact Hs2 |]. split; [exact Hw2 |].
    split; [congruence |]. split; [congruence |].
    destruct Hr2 as [-> | [-> | ->]]; auto.
Qed.



(** X17.  The status snapshot gives away no secret: it depends on
    [appSecret] and [accessToken] only through whether each is set, so
    two clients that differ in the values of their secrets alone report
    the very same status. *)
Theorem status_hides_secrets (w1 w2 : World t) :
  webSocket (this w1) = webSocket (this w2) →
  url (this w1) = url (this w2) →
  appId (this w1) = appId (this w2) →
  truthy_str (appSecret (this w1)) = truthy_str (appSecret (this w2)) →
  truthy_str (accessToken (this w1)) = truthy_str (accessToken (this w2)) →
  (getStatus w1).1 = (getStatus w2).1.
Proof.
  intros Hs Hu Ha Hsecret Htoken. unfold getStatus. run.
  rewrite Hs, Hu, Ha, Hsecret, Htoken.
  by destruct (webSocket (this w2)).
Qed.
End LifeOfAClient.

(** * The reconnecting mock transport *)

Section ReconnectingMock.
Import MockReconnectingWebSocket.

Lemma indexOf_None (id : nat) (l : list Callback) :
  indexOf id l = None ↔ registrations id l = 0%nat.
Proof.
  induction l as [|f l IH]; cbn; [done |].
  destruct (Nat.eqb (cb_id f) id); cbn; [done |].
  rewrite <- IH. by destruct (indexOf id l).
Qed.

Lemma indexOf_first (id : nat) (l1 l2 : list Callback) (f : Callback) :
  cb_id f = id →
  registrations id l1 = 0%nat →
  indexOf id (l1 ++ f :: l2) = Some (length l1).
Proof.
  intros Hf. induction l1 as [|g l1 IH]; cbn.
  - intros _. by rewrite Hf, Nat.eqb_refl.
  - destruct (Nat.eqb (cb_id g) id); cbn; [done |]. intros H. by rewrite IH.
Qed.


(** X18.  [removeEventListener] takes out the earliest registration of
    the callback under the event and nothing else: the listeners before
    and after it keep their order, other events keep their lists, nothing
    is called; for a callback that is not registered under the event the
    call changes nothing at all. *)
Theorem removeEventListener_first (event : string) (callback : Callback)
    (w : World t) :
  (registrations (cb_id callback) (registered (this w) event) = 0%nat →
   removeEventListener event callback w = (Returned (), w))
  ∧ ∀ l1 f l2,
      registered (this w) event = l1 ++ f :: l2 →
      cb_id f = cb_id callback →
      registrations (cb_id callback) l1 = 0%nat →
      ∃ w', removeEventListener event callback w = (Returned (), w')
            ∧ log w' = log w
            ∧ registered (this w') event = l1 ++ l2
            ∧ ∀ other, other ≠ event →
                       registered (this w') other = registered (this w) other.
Proof.
  unfold removeEventListener, registered. run. split.
  - intros Habsent.
    destruct (listeners (this w) !! event) as [l|]; cbn in *; [| by destruct w].
    apply indexOf_None in Habsent. rewrite Habsent. by destruct w.
  - intros l1 f l2 Hl Hf Hl1.
    destruct (listeners (this w) !! event) as [l|] eqn:El; cbn in Hl;
      [subst l | by destruct l1].
    rewrite (indexOf_first _ l1 l2 f Hf Hl1), delete_middle.
    eexists. split; [reflexivity |]. cbn. split; [done |]. split.
    + by rewrite lookup_insert_eq.
    + intros other Hne. by rewrite lookup_insert_ne.
Qed.

(** X19.  Adding a listener that was not registered under the event and
    removing it again gives back the listeners of every event as they
    were, and calls nobody. *)
Theorem add_then_remove (event : string) (callback : Callback) (w : World t) :
  registrations (cb_id callback) (registered (this w) event) = 0%nat →
  ∃ w', (addEventListener event callback;; removeEventListener event callback) w
        = (Returned (), w')
        ∧ log w' = log w
        ∧ ∀ e, registered (this w') e = registered (this w) e.
Proof.
  intros Hfresh.
  unfold addEventListener, removeEventListener, mbind, M_bind, bind. run.
  set (l := match listeners (this w) !! event with Some l => l | None => [] end).
  assert (Hl : l = registered (this w) event) by done.
  cbn. rewrite lookup_insert_eq.
  rewrite (indexOf_first (cb_id callback) l [] callback eq_refl)
    by (by rewrite Hl).
  eexists. split; [reflexivity |]. cbn. split; [done |].
  intros e. unfold registered. cbn. rewrite insert_insert_eq.
  destruct (decide (event = e)) as [<- | Hne].
  - rewrite lookup_insert_eq. by rewrite delete_middle, app_nil_r.
  - by rewrite lookup_insert_ne.
Qed.

Lemma is_ping_spec (data : JsValue) : is_ping data = true ↔ data = JStr "Ping".
Proof.
  destruct data; cbn; try (split; [discriminate | discriminate]).
  destruct (String.eqb_spec s "Ping") as [-> | Hne]; split; try done.
  by intros [= ->].
Qed.

(** X22.  [send] never calls a listener itself; it arms one timer.  With
    no other timer armed, when that timer fires the [message] listeners
    receive [{ data: 'Pong' }] if the payload was the string 'Ping', and
    in every other case the payload itself, echoed as [{ data }]. *)
Theorem send_is_answered (data : JsValue) (w : World t) :
  (send data w).1 = Returned ()
  ∧ log (send data w).2 = log w
  ∧ (timers (this w) = [] →
     (data = JStr "Ping" →
      (send data;; run_timer) w
      = triggerEvent "message" (JObject [("data", JStr "Pong")]) w)
     ∧ (data ≠ JStr "Ping" →
        (send data;; run_timer) w
        = triggerEvent "message" (JObject [("data", data)]) w)).
Proof.
  unfold send, setTimeout, run_timer, mbind, M_bind, bind. run.
  split; [by destruct (is_ping data) |]. split; [by destruct (is_ping data) |].
  intros Ht. destruct w as [[u p o r m q] lg]. cbn in Ht. subst q. split.
  - intros ->. reflexivity.
  - intros Hne. destruct (is_ping data) eqn:E; [| reflexivity].
    by apply is_ping_spec in E.
Qed.

End ReconnectingMock.

(** * Listeners that change the listeners *)

Section LivePass.
Import MockReconnectingWebSocket.
Context (listen : Callback → JsValue → M t unit).
Context (event : string) (data : JsValue).

Local Abbreviation forEach_from := (LiveListeners.forEach_from listen).
Local Abbreviation call_each := (LiveListeners.call_each listen).
Local Abbreviation leaves_alone := (LiveListeners.leaves_alone listen event data).

Lemma then_nothing (m k : M t unit) (w : World t) :
  (∀ w', k w' = (Returned (), w')) → (m;; k) w = m w.
Proof.
  intros Hk. unfold mbind, M_bind, bind.
  destruct (m w) as [[[]|e] w']; [apply Hk | done].
Qed.

Lemma past_the_end (n k : nat) (w : World t) :
  (length (registered (this w) event) ≤ k)%nat →
  forEach_from n k event data w = (Returned (), w).
Proof.
  revert k. induction n as [|n IH]; intros k Hk; cbn; [done |].
  run. rewrite lookup_ge_None_2 by done. apply IH. lia.
Qed.

Lemma pass_over (tail pre rest : list Callback) (n : nat) (w : World t) :
  registered (this w) event = pre ++ tail ++ rest →
  Forall leaves_alone tail →
  forEach_from (length tail + n) (length pre) event data w
  = (call_each tail data;;
     forEach_from n (length pre + length tail) event data) w.
Proof.
  revert pre w. induction tail as [|f tail IH]; intros pre w Hl Hq.
  - cbn. by rewrite Nat.add_0_r.
  - apply Forall_cons in Hq as [Hf Hq]. cbn [length Nat.add].
    cbn [LiveListeners.forEach_from LiveListeners.call_each].
    unfold mbind, M_bind, bind, get_this. cbn [this].
    rewrite Hl, lookup_app_r, Nat.sub_diag by done. cbn [lookup list_lookup app].
    destruct (listen f data w) as [[[]|e] w'] eqn:Ef; [| done].
    assert (Hl' : registered (this w') event = (pre ++ [f]) ++ tail ++ rest).
    { replace w' with (listen f data w).2 by (by rewrite Ef).
      by rewrite Hf, Hl, <- app_assoc. }
    specialize (IH (pre ++ [f]) w' Hl' Hq).
    rewrite length_app in IH. cbn [length] in IH.
    rewrite Nat.add_1_r in IH. rewrite IH.
    unfold mbind, M_bind, bind.
    by replace (S (length pre) + length tail)%nat
      with (length pre + S (length tail))%nat by lia.
Qed.

Lemma call_each_keeps (l : list Callback) (w : World t) :
  Forall leaves_alone l →
  registered (this (call_each l data w).2) event = registered (this w) event.
Proof.
  revert w. induction l as [|f l IH]; intros w Hq; [done |].
  apply Forall_cons in Hq as [Hf Hq]. cbn [LiveListeners.call_each].
  unfold mbind, M_bind, bind.
  destruct (listen f data w) as [[[]|e] w'] eqn:Ef; cbn.
  - rewrite (IH _ Hq). replace w' with (listen f data w).2 by (by rewrite Ef).
    apply Hf.
  - replace w' with (listen f data w).2 by (by rewrite Ef). apply Hf.
Qed.

Lemma has_listeners (w : World t) (f : Callback) (l : list Callback) :
  registered (this w) event = f :: l → listeners (this w) !! event = Some (f :: l).
Proof.
  unfold registered. destruct (listeners (this w) !! event); cbn; [by intros -> | done].
Qed.

Lemma pass_in_order (w : World t) :
  Forall leaves_alone (registered (this w) event) →
  LiveListeners.triggerEvent listen event data w
  = call_each (registered (this w) event) data w.
Proof.
  intros Hq. unfold LiveListeners.triggerEvent, registered in *. run.
  destruct (listeners (this w) !! event) as [l|] eqn:El; cbn in *; [| by destruct w].
  pose proof (pass_over l [] [] 0 w) as Hp. cbn [length app Nat.add] in Hp.
  rewrite Nat.add_0_r in Hp. unfold registered in Hp. rewrite El in Hp.
  rewrite Hp by (by rewrite ?app_nil_r). by apply then_nothing.
Qed.
End LivePass.

Section LivePassFacts.
Import MockReconnectingWebSocket.
Context (listen : Callback → JsValue → M t unit).
Context (event : string) (data : JsValue).

Local Abbreviation call_each := (LiveListeners.call_each listen).
Local Abbreviation leaves_alone := (LiveListeners.leaves_alone listen event data).

Lemma plain_leaves_alone (f : Callback) :
  LiveListeners.leaves_alone LiveListeners.plain event data f.
Proof.
  intros w'. unfold LiveListeners.plain. run. by destruct (cb_run f [data]).
Qed.

Lemma once_removes_itself (self : Callback) :
  cb_run self [data] = None →
  ∀ w' l', registered (this w') event = self :: l' →
           (LiveListeners.once event self self data w').1 = Returned ()
           ∧ registered (this (LiveListeners.once event self self data w').2) event
             = l'.
Proof.
  intros Hquiet w' l' Hl. unfold LiveListeners.once, removeEventListener.
  rewrite Nat.eqb_refl. run. rewrite Hquiet. cbn.
  rewrite (has_listeners event w' self l' Hl). cbn. rewrite Nat.eqb_refl. cbn.
  split; [done |]. unfold registered. cbn. by rewrite lookup_insert_eq.
Qed.

(** X20.  While no listener of the event adds or removes a listener of
    that event, [triggerEvent] over the live array comes to calling the
    listeners that were there at the start, in the order they were added,
    once per registration, up to the first one that throws.  For
    listeners that only return or throw this is the pass over the list as
    it stood. *)
Theorem live_pass_in_order (w : World t) :
  (Forall leaves_alone (registered (this w) event) →
   LiveListeners.triggerEvent listen event data w
   = call_each (registered (this w) event) data w)
  ∧ LiveListeners.triggerEvent LiveListeners.plain event data w
    = triggerEvent event data w.
Proof.
  split; [apply pass_in_order |].
  rewrite pass_in_order.
  - unfold triggerEvent, registered. run.
    destruct (listeners (this w) !! event) as [l|]; cbn; [| by destruct w].
    clear. revert w. induction l as [|f l IH]; intros w; [done |].
    cbn [LiveListeners.call_each forEach].
    change (LiveListeners.plain f data) with (call (T := t) f [data]).
    unfold mbind, M_bind, bind.
    destruct (call f [data] w) as [[[]|e] w']; [apply IH | done].
  - apply Forall_forall. intros f _. apply plain_leaves_alone.
Qed.


(** X24.  A listener that removes itself during the pass makes the
    listener added right after it be passed over: with the listeners
    [g, h, ...] where calling [g] returns and takes [g] out of the event's
    array, [triggerEvent] calls [g] and then the listeners after [h], and
    never [h] in its place. *)
Theorem self_removal_skips_next (g h : Callback) (rest : list Callback)
    (w : World t) :
  registered (this w) event = g :: h :: rest →
  (∀ w' l', registered (this w') event = g :: l' →
            (listen g data w').1 = Returned ()
            ∧ registered (this (listen g data w').2) event = l') →
  Forall leaves_alone rest →
  LiveListeners.triggerEvent listen event data w
  = (listen g data;; call_each rest data) w.
Proof.
  intros Hl Hg Hq. unfold LiveListeners.triggerEvent. run.
  rewrite (has_listeners event w g (h :: rest) Hl). cbn [length].
  cbn [LiveListeners.forEach_from]. unfold mbind, M_bind, bind, get_this.
  cbn [this]. rewrite Hl. cbn [lookup list_lookup].
  destruct (Hg w (h :: rest) Hl) as [Hret Hafter].
  destruct (listen g data w) as [[[]|e] w'] eqn:Eg; [| done]. cbn in Hafter.
  pose proof (pass_over listen event data rest [h] [] 1 w') as Hp.
  rewrite app_nil_r in Hp. specialize (Hp Hafter Hq).
  rewrite Nat.add_1_r in Hp. cbn [length] in Hp.
  change (LiveListeners.forEach_from listen (S (length rest)) 1 event data w'
          = call_each rest data w').
  rewrite Hp.
  unfold mbind, M_bind, bind.
  pose proof (call_each_keeps listen event data rest w' Hq) as Hkeep.
  destruct (LiveListeners.call_each listen rest data w') as [[[]|e] w''];
    [| done].
  cbn in Hkeep. apply past_the_end. rewrite Hkeep, Hafter. cbn. lia.
Qed.
End LivePassFacts.

(** * The further theorems at concrete inputs *)

Lemma send_open_success_witness :
  let data := JStr "Hello World" in
  let result := [JNull; JObject [("success", JBool true)]] in
  truthy data = true
  ∧ is_open (this Jsdom.opened) = true
  ∧ WebSocket_send Jsdom.env data = None
  ∧ cb_run (Jsdom.quiet 1) result = None
  ∧ SimpleWebSocket.send Jsdom.env data (Some (Jsdom.quiet 1)) Jsdom.opened
    = (Returned (),
       mkWorld (this Jsdom.opened)
         (ECall 1 result :: ESocketSend data :: log Jsdom.opened)).
Proof.
  cbn zeta. do 4 (split; [reflexivity |]).
  exact (proj2 (send_open_success Jsdom.env (JStr "Hello World") (Jsdom.quiet 1)
                  Jsdom.opened eq_refl eq_refl eq_refl) eq_refl).
Defined.

Lemma send_transport_exception_witness :
  let data := JStr "Hello World" in
  let e := JError "InvalidStateError" "broken" in
  let error := JObject [("message", JStr "Error while sending the data.");
                        ("originalError", e)] in
  truthy data = true
  ∧ is_open (this Jsdom.opened) = true
  ∧ WebSocket_send Samples.broken_pipe data = Some e
  ∧ SimpleWebSocket.send Samples.broken_pipe data (Some (Jsdom.quiet 1)) Jsdom.opened
    = (Returned (),
       mkWorld (this Jsdom.opened)
         (ECall 1 [error] :: ESocketSend data :: log Jsdom.opened)).
Proof.
  cbn zeta. do 3 (split; [reflexivity |]).
  exact (proj2 (send_transport_exception Samples.broken_pipe (JStr "Hello World")
                  (JError "InvalidStateError" "broken") (Jsdom.quiet 1) Jsdom.opened
                  eq_refl eq_refl eq_refl)).
Defined.

Lemma disconnect_closes_witness :
  SimpleWebSocket.webSocket (this Jsdom.unsupported) = None
  ∧ SimpleWebSocket.disconnect Jsdom.unsupported = (Returned (), Jsdom.unsupported)
  ∧ ∃ s, SimpleWebSocket.webSocket (this Samples.observed_connecting) = Some s
         ∧ MockWebSocket.onclose s = Some HOnClose
         ∧ SimpleWebSocket.disconnect Samples.observed_connecting
           = (Returned (),
              mkWorld
                (SimpleWebSocket.set_webSocket (MockWebSocket.set_readyState 3 s)
                   (this Samples.observed_connecting))
                (ECall 14 [] :: ETransportEvent "close" :: ESocketClose
                 :: log Samples.observed_connecting)).
Proof.
  destruct (disconnect_closes Jsdom.unsupported) as [Hnone _].
  split; [reflexivity |]. split; [exact (Hnone eq_refl) |].
  destruct (disconnect_closes Samples.observed_connecting) as [_ Hsome].
  eexists. split; [reflexivity |]. split; [reflexivity |].
  exact (Hsome _ eq_refl eq_refl).
Defined.

Lemma send_after_disconnect_witness :
  let w1 := (SimpleWebSocket.disconnect Jsdom.opened).2 in
  let error :=
    JObject [("message", JStr "WebSocket Connection not open. Couldn't send data.");
             ("readyState", JNum 3)] in
  is_open (this Jsdom.opened) = true
  ∧ truthy (JStr "late") = true
  ∧ (∃ st, SimpleWebSocket.getStatus w1 = (Returned st, w1)
           ∧ connected st = JBool false
           ∧ get_field st "readyState" = JNum 3)
  ∧ SimpleWebSocket.send Jsdom.env (JStr "late") (Some (Jsdom.quiet 1)) w1
    = (Returned (), mkWorld (this w1) (ECall 1 [error] :: log w1)).
Proof.
  cbn zeta. do 2 (split; [reflexivity |]).
  destruct (send_after_disconnect Jsdom.env (JStr "late") (Jsdom.quiet 1) Jsdom.opened
              _ eq_refl eq_refl) as [Hstatus Hsend].
  split; [exact Hstatus | exact (Hsend eq_refl)].
Defined.

Lemma new_stores_options_witness :
  truthy_str (Options.url Jsdom.all_options) = true
  ∧ config (this (SimpleWebSocket.new Jsdom.env Jsdom.all_options).2)
    = (Some "wss://test.com", Some "test-token", Some "test-app", Some "test-secret",
       Jsdom.all_options).
Proof.
  split; [reflexivity |].
  exact (proj1 (new_stores_options Jsdom.env Jsdom.all_options eq_refl)).
Defined.

Lemma new_unsupported_witness :
  let error := JError "Error" "WebSocket is not supported in this environment" in
  truthy_str (Options.url Samples.observed) = true
  ∧ has_WebSocket Jsdom.bare = false
  ∧ (SimpleWebSocket.new Jsdom.bare Samples.observed).1 = Returned ()
  ∧ log (SimpleWebSocket.new Jsdom.bare Samples.observed).2 = [ECall 13 [error]]
  ∧ SimpleWebSocket.webSocket (this (SimpleWebSocket.new Jsdom.bare Samples.observed).2)
    = None.
Proof.
  cbn zeta. do 2 (split; [reflexivity |]).
  exact (new_unsupported Jsdom.bare Samples.observed eq_refl eq_refl).
Defined.

Lemma new_invalid_url_witness :
  let o := Options.only_url "not a url" in
  URL_parse Jsdom.env "not a url" = None
  ∧ (∃ e, (SimpleWebSocket.new Jsdom.env o).1 = Thrown e)
  ∧ log (SimpleWebSocket.new Jsdom.env o).2 = []
  ∧ SimpleWebSocket.webSocket (this (SimpleWebSocket.new Jsdom.env o).2) = None.
Proof.
  cbn zeta. split; [reflexivity |].
  exact (new_invalid_url Jsdom.env (Options.only_url "not a url") "not a url"
           eq_refl ltac:(discriminate) eq_refl eq_refl).
Defined.

Lemma new_socket_failure_witness :
  let e := JError "SyntaxError" "refused" in
  WebSocket_new Samples.refusing "wss://test.com/" = Some e
  ∧ (SimpleWebSocket.new Samples.refusing Samples.observed).1 = Returned ()
  ∧ log (SimpleWebSocket.new Samples.refusing Samples.observed).2
    = [ECall 13 [e];
       EConsole "error" [JStr "Failed to create WebSocket connection:"; e];
       ESocketNew "wss://test.com/";
       EConsole "log" [JStr "Connecting to WebSocket:"; JStr "wss://test.com/"]]
  ∧ SimpleWebSocket.webSocket
      (this (SimpleWebSocket.new Samples.refusing Samples.observed).2) = None.
Proof.
  cbn zeta. split; [reflexivity |].
  exact (new_socket_failure Samples.refusing Samples.observed "wss://test.com"
           (URL.mk "wss://test.com/" [] "") (JError "SyntaxError" "refused")
           eq_refl ltac:(discriminate) eq_refl eq_refl eq_refl).
Defined.

Lemma new_wires_socket_witness :
  let href := "wss://test.com/?appId=test-app&appSecret=test-secret&token=test-token" in
  WebSocket_new Jsdom.env href = None
  ∧ (SimpleWebSocket.new Jsdom.env Jsdom.all_options).1 = Returned ()
  ∧ SimpleWebSocket.webSocket (this (SimpleWebSocket.new Jsdom.env Jsdom.all_options).2)
    = Some (MockWebSocket.mk href 0 "arraybuffer" (Some HOnConnect) (Some HOnError)
              (Some HOnMessage) (Some HOnClose))
  ∧ log (SimpleWebSocket.new Jsdom.env Jsdom.all_options).2
    = [ESocketNew href; EConsole "log" [JStr "Connecting to WebSocket:"; JStr href]].
Proof.
  cbn zeta. split; [reflexivity |].
  exact (new_wires_socket Jsdom.env Jsdom.all_options "wss://test.com"
           (URL.mk "wss://test.com/" [] "")
           eq_refl ltac:(discriminate) eq_refl eq_refl eq_refl).
Defined.

Lemma wiring_survives_witness :
  let l := [TOpen; ASend (JStr "Hello World") None; TMessage (JStr "Echo: Hello World");
            ADisconnect] in
  ∃ s, SimpleWebSocket.webSocket (this Jsdom.connecting) = Some s
       ∧ wired s
       ∧ ∃ s', SimpleWebSocket.webSocket (this (run_actions Jsdom.env l Jsdom.connecting))
               = Some s'
               ∧ wired s'
               ∧ MockWebSocket.url s' = MockWebSocket.url s.
Proof.
  cbn zeta. eexists. split; [reflexivity |].
  assert (Hw : wired (MockWebSocket.mk "wss://test.com/" 0 "arraybuffer"
                        (Some HOnConnect) (Some HOnError) (Some HOnMessage)
                        (Some HOnClose))) by (by repeat split).
  split; [exact Hw |].
  destruct (wiring_survives Jsdom.env
              [TOpen; ASend (JStr "Hello World") None;
               TMessage (JStr "Echo: Hello World"); ADisconnect]
              Jsdom.connecting _ eq_refl Hw) as (s' & Hs' & Hw' & Hu' & _).
  exists s'. split; [exact Hs' |]. split; [exact Hw' | exact Hu'].
Defined.



Lemma status_hides_secrets_witness :
  let socket := Some (MockWebSocket.create "wss://test.com/") in
  let client secret token :=
    mkWorld (SimpleWebSocket.mk (Some "wss://test.com") (Some token) (Some "test-app")
               (Some secret) Options.empty socket None) [] in
  (SimpleWebSocket.getStatus (client "test-secret" "test-token")).1
  = (SimpleWebSocket.getStatus (client "another secret" "another token")).1.
Proof.
  cbn zeta. apply status_hides_secrets; reflexivity.
Defined.

Lemma removeEventListener_first_witness :
  let w := Samples.idle in
  registrations 3 (MockReconnectingWebSocket.registered (this w) "message") = 0%nat
  ∧ MockReconnectingWebSocket.removeEventListener "message" (Jsdom.quiet 3) w
    = (Returned (), w)
  ∧ ∃ w', MockReconnectingWebSocket.removeEventListener "message" (Jsdom.quiet 1) w
          = (Returned (), w')
          ∧ MockReconnectingWebSocket.registered (this w') "message" = [Jsdom.quiet 2].
Proof.
  cbn zeta.
  destruct (removeEventListener_first "message" (Jsdom.quiet 3) Samples.idle)
    as [Habsent _].
  split; [reflexivity |]. split; [exact (Habsent eq_refl) |].
  destruct (removeEventListener_first "message" (Jsdom.quiet 1) Samples.idle)
    as [_ Hfirst].
  destruct (Hfirst [] (Jsdom.quiet 1) [Jsdom.quiet 2] eq_refl eq_refl eq_refl)
    as (w' & Hremove & _ & Hreg & _).
  exists w'. split; [exact Hremove | exact Hreg].
Defined.

Lemma add_then_remove_witness :
  registrations 3 (MockReconnectingWebSocket.registered (this Samples.idle) "open")
  = 0%nat
  ∧ ∃ w', (MockReconnectingWebSocket.addEventListener "open" (Jsdom.quiet 3);;
           MockReconnectingWebSocket.removeEventListener "open" (Jsdom.quiet 3))
            Samples.idle
          = (Returned (), w')
          ∧ log w' = log Samples.idle
          ∧ ∀ e, MockReconnectingWebSocket.registered (this w') e
                 = MockReconnectingWebSocket.registered (this Samples.idle) e.
Proof.
  split; [reflexivity |].
  exact (add_then_remove "open" (Jsdom.quiet 3) Samples.idle eq_refl).
Defined.

Lemma send_is_answered_witness :
  MockReconnectingWebSocket.timers (this Samples.idle) = []
  ∧ (MockReconnectingWebSocket.send (JStr "Ping");;
     MockReconnectingWebSocket.run_timer) Samples.idle
    = MockReconnectingWebSocket.triggerEvent "message"
        (JObject [("data", JStr "Pong")]) Samples.idle
  ∧ (MockReconnectingWebSocket.send (JStr "hello");;
     MockReconnectingWebSocket.run_timer) Samples.idle
    = MockReconnectingWebSocket.triggerEvent "message"
        (JObject [("data", JStr "hello")]) Samples.idle.
Proof.
  split; [reflexivity |]. split.
  - destruct (send_is_answered (JStr "Ping") Samples.idle) as (_ & _ & Hreply).
    exact (proj1 (Hreply eq_refl) eq_refl).
  - destruct (send_is_answered (JStr "hello") Samples.idle) as (_ & _ & Hreply).
    exact (proj2 (Hreply eq_refl) ltac:(discriminate)).
Defined.


Lemma live_pass_in_order_witness :
  let data := JObject [("data", JStr "Pong")] in
  Forall (LiveListeners.leaves_alone LiveListeners.plain "message" data)
         (MockReconnectingWebSocket.registered (this Samples.idle) "message")
  ∧ LiveListeners.triggerEvent LiveListeners.plain "message" data Samples.idle
    = (Returned (), mkWorld (this Samples.idle) [ECall 2 [data]; ECall 1 [data]]).
Proof.
  cbn zeta.
  assert (Hq : Forall (LiveListeners.leaves_alone LiveListeners.plain "message"
                         (JObject [("data", JStr "Pong")]))
                      (MockReconnectingWebSocket.registered (this Samples.idle)
                         "message")).
  { apply Forall_forall. intros f _. apply plain_leaves_alone. }
  split; [exact Hq |].
  rewrite (proj1 (live_pass_in_order LiveListeners.plain "message"
                    (JObject [("data", JStr "Pong")]) Samples.idle) Hq).
  reflexivity.
Defined.


Lemma self_removal_skips_next_witness :
  let data := JObject [("data", JStr "Pong")] in
  let listen := LiveListeners.once "message" (Jsdom.quiet 1) in
  let after := (LiveListeners.triggerEvent listen "message" data Samples.idle).2 in
  MockReconnectingWebSocket.registered (this Samples.idle) "message"
  = [Jsdom.quiet 1; Jsdom.quiet 2]
  ∧ log after = [ECall 1 [data]]
  ∧ MockReconnectingWebSocket.registered (this after) "message" = [Jsdom.quiet 2].
Proof.
  cbn zeta. split; [reflexivity |].
  rewrite (self_removal_skips_next (LiveListeners.once "message" (Jsdom.quiet 1))
             "message" (JObject [("data", JStr "Pong")]) (Jsdom.quiet 1)
             (Jsdom.quiet 2) [] Samples.idle eq_refl
             (once_removes_itself "message" (JObject [("data", JStr "Pong")])
                (Jsdom.quiet 1) eq_refl)
             (Forall_nil_2 _)).
  split; vm_compute; reflexivity.
Defined.
